(** * Verification of the geographic data model (utils/geographicData.ts)

    A shallow embedding of [getClimateZone], [getElevationFromCoordinates],
    [getCoastalInfluence], [getGeographicData] and [getCropSuitability],
    and of two of their callers in components/OpenStreetMapSimple.tsx
    ([getRegionName] and the initialiser of the nine farm cells), followed
    by the properties the specification states about them and by further
    properties of the code.

    Numbers: a JavaScript [number] that holds a finite value is modelled as
    an exact rational ([Q]); equality of numbers is [Qeq] ([==]).  NaN and
    the infinities have no counterpart, and no rounding error is modelled.

    Randomness: [Math.random()] is modelled by explicit state passing over a
    [RandomSource], the sequence of values the successive calls return.

    Errors: a JavaScript exception is modelled by the [Throw] case of
    [completion]. *)

From Stdlib Require Import QArith Qround Qabs Qminmax ZArith PeanoNat String List Bool Lia Lqa.
Import ListNotations.

Local Open Scope string_scope.
Local Open Scope Q_scope.

(** ** JavaScript numbers and the [Math] object *)

Module Js.

Definition number := Q.

(** Relational operators on numbers. *)
Definition ge (x y : number) : bool := Qle_bool y x.
Definition le (x y : number) : bool := Qle_bool x y.
Definition lt (x y : number) : bool := negb (Qle_bool y x).
Definition gt (x y : number) : bool := negb (Qle_bool x y).

(** [Math.abs], [Math.max], [Math.min], [Math.floor]. *)
Definition Math_abs (x : number) : number := Qabs x.
Definition Math_max (x y : number) : number := Qmax x y.
Definition Math_min (x y : number) : number := Qmin x y.
Definition Math_floor (x : number) : number := inject_Z (Qfloor x).

(** [Math.round]: the nearest integer, a tie going up (towards +infinity). *)
Definition Math_round (x : number) : number := inject_Z (Qfloor (x + (1 # 2))).

(** [Math.pow(x, 2)]. *)
Definition Math_pow2 (x : number) : number := x * x.

(** Truncation towards zero, the quotient that [%] uses. *)
Definition trunc (x : number) : Z :=
  if Qle_bool 0 x then Qfloor x else Qceiling x.

(** [x % y]: the remainder has the sign of the dividend [x]. *)
Definition rem (x y : number) : number := x - y * inject_Z (trunc (x / y)).

(** A number that holds an integer value. *)
Definition is_integer (x : number) : Prop := exists z : Z, x == inject_Z z.

(** The part of [Math] that the language leaves to the engine: the program
    uses [Math.sqrt], [Math.sin] and [Math.cos]. *)
Class MathImpl : Type := {
  Math_sqrt : number -> number;
  Math_sin : number -> number;
  Math_cos : number -> number
}.

(** What is assumed of an engine where a property depends on these
    functions: the square root is monotone and exact on squares of
    integers, sine and cosine stay within [-1, 1]. *)
Class MathLaws (M : MathImpl) : Prop := {
  Math_sqrt_mono : forall x y, x <= y -> Math_sqrt x <= Math_sqrt y;
  Math_sqrt_square : forall n : Z, (0 <= n)%Z ->
    Math_sqrt (inject_Z (n * n)) == inject_Z n;
  Math_sin_range : forall x, -1 <= Math_sin x <= 1;
  Math_cos_range : forall x, -1 <= Math_cos x <= 1
}.

(** *** The random source *)

(** The values that the successive calls of [Math.random()] return. *)
Definition RandomSource := nat -> number.

(** A computation that may call [Math.random()]. *)
Definition Rand (A : Type) : Type := RandomSource -> A * RandomSource.

Definition ret {A} (a : A) : Rand A := fun s => (a, s).

Definition bind {A B} (c : Rand A) (k : A -> Rand B) : Rand B :=
  fun s => let (a, s') := c s in k a s'.

Definition Math_random : Rand number :=
  fun s => (s 0%nat, fun n => s (S n)).

(** The contract of [Math.random()]: every value lies in [0, 1). *)
Definition unit_interval (s : RandomSource) : Prop :=
  forall n, 0 <= s n /\ s n < 1.

(** *** Completions *)

Inductive JsError : Type := TypeError.

(** The outcome of a call: a value, or a thrown exception. *)
Inductive completion (A : Type) : Type :=
| Normal (v : A)
| Throw (e : JsError).

Arguments Normal {A} v.
Arguments Throw {A} e.

Definition cbind {A B} (c : completion A) (k : A -> completion B) : completion B :=
  match c with
  | Normal v => k v
  | Throw e => Throw e
  end.

End Js.

Import Js.

Notation "x <- c ;; k" := (bind c (fun x => k))
  (at level 61, c at next level, right associativity).
Notation "x <-! c ;; k" := (cbind c (fun x => k))
  (at level 61, c at next level, right associativity).

(** ** The data model *)

Inductive SoilType : Type := clay | sandy | loam | rocky | peat.

Definition SoilType_eqb (a b : SoilType) : bool :=
  match a, b with
  | clay, clay | sandy, sandy | loam, loam | rocky, rocky | peat, peat => true
  | _, _ => false
  end.

(** [interface GeographicData].  [soilType] is [None] when the field holds
    the JavaScript value [undefined], which is what reading an array past
    its end yields. *)
Record GeographicData : Type := {
  soilType : option SoilType;
  waterLevel : number;
  moistureLevel : number;
  temperature : number;
  rainfall : number;
  soilPH : number;
  elevation : number
}.

(** [interface ClimateZone]. *)
Record ClimateZone : Type := {
  name : string;
  baseTemperature : number;
  baseRainfall : number;
  baseMoisture : number;
  dominantSoilType : SoilType
}.

(** ** getClimateZone *)

Definition getClimateZone (lat : number) : ClimateZone :=
  let absLat := Math_abs lat in
  if ge absLat 66.5 then
    {| name := "Polar"; baseTemperature := -5; baseRainfall := 300;
       baseMoisture := 85; dominantSoilType := rocky |}
  else if ge absLat 60 then
    {| name := "Subarctic"; baseTemperature := 5; baseRainfall := 500;
       baseMoisture := 75; dominantSoilType := peat |}
  else if ge absLat 40 then
    {| name := "Continental"; baseTemperature := 15; baseRainfall := 800;
       baseMoisture := 65; dominantSoilType := loam |}
  else if ge absLat 30 then
    {| name := "Subtropical"; baseTemperature := 22; baseRainfall := 1200;
       baseMoisture := 70; dominantSoilType := clay |}
  else if ge absLat 23.5 then
    {| name := "Tropical"; baseTemperature := 27; baseRainfall := 2000;
       baseMoisture := 80; dominantSoilType := clay |}
  else
    {| name := "Equatorial"; baseTemperature := 26; baseRainfall := 2500;
       baseMoisture := 85; dominantSoilType := loam |}.

(** ** getCoastalInfluence *)

Definition getCoastalInfluence (lat lng : number) : number :=
  let coastalProximity :=
    Math_min (Math_abs (rem lng 60)) (Math_abs (rem (lng + 180) 60)) in
  Math_max 0 ((20 - coastalProximity) / 20).

(** ** getElevationFromCoordinates *)

Record MountainRegion : Type := {
  region_lat : number;
  region_lng : number;
  region_elevation : number
}.

Definition mountainousRegions : list MountainRegion :=
  [ {| region_lat := 40; region_lng := -105; region_elevation := 2000 |};
    {| region_lat := 46; region_lng := 8; region_elevation := 1500 |};
    {| region_lat := 28; region_lng := 84; region_elevation := 3000 |};
    {| region_lat := -22; region_lng := -65; region_elevation := 2500 |} ].

(** Reading [a[i]]: [undefined] ([None]) unless [i] is an index of [a]. *)
Definition array_get {A} (a : list A) (i : number) : option A :=
  if Qeq_bool i (inject_Z (Qfloor i)) && ge i 0
  then nth_error a (Z.to_nat (Qfloor i))
  else None.

(** [soilType === s], where [soilType] may hold [undefined]. *)
Definition strict_eq (v : option SoilType) (s : SoilType) : bool :=
  match v with
  | Some t => SoilType_eqb t s
  | None => false
  end.

Section Geography.

Context {M : MathImpl}.

(** The body of the [forEach] callback: the base elevation after [region]. *)
Definition addRegion (lat lng : number) (baseElevation : number)
    (region : MountainRegion) : number :=
  let distance :=
    Math_sqrt (Math_pow2 (lat - region_lat region)
               + Math_pow2 (lng - region_lng region)) in
  if lt distance 10
  then baseElevation + region_elevation region * (1 - distance / 10)
  else baseElevation.

Definition getElevationFromCoordinates (lat lng : number) : Rand number :=
  let baseElevation := 200 in
  let baseElevation :=
    fold_left (addRegion lat lng) mountainousRegions baseElevation in
  r <- Math_random ;;
  let baseElevation := baseElevation + (r - 0.5) * 400 in
  ret (Math_max 0 (Math_round baseElevation)).

(** ** getGeographicData *)

Definition soilTypes : list SoilType := [clay; sandy; loam; rocky; peat].

Definition getGeographicData (lat lng : number) : Rand GeographicData :=
  let climateZone := getClimateZone lat in
  elevation <- getElevationFromCoordinates lat lng ;;
  let coastalInfluence := getCoastalInfluence lat lng in
  (* Temperature calculation *)
  let elevationTempAdjustment := elevation * -0.006 in
  let coastalTempModeration := coastalInfluence * 3 in
  r <- Math_random ;;
  let seasonalVariation := (r - 0.5) * 10 in
  let temperature :=
    Math_round (baseTemperature climateZone + elevationTempAdjustment
                + coastalTempModeration + seasonalVariation) in
  (* Rainfall calculation *)
  let elevationRainfallEffect :=
    if gt elevation 1000 then elevation * 0.5 else 0 in
  let coastalRainfallEffect := coastalInfluence * 300 in
  let continentalityEffect := (1 - coastalInfluence) * -200 in
  r <- Math_random ;;
  let rainfall :=
    Math_max 100 (Math_round
      (baseRainfall climateZone + elevationRainfallEffect
       + coastalRainfallEffect + continentalityEffect + (r - 0.5) * 400)) in
  (* Moisture calculation *)
  let elevationMoistureEffect :=
    if gt elevation 500 then - elevation * 0.01 else 0 in
  let rainfallMoistureEffect := (rainfall - 800) * 0.02 in
  r <- Math_random ;;
  let moistureLevel :=
    Math_max 20 (Math_min 100 (Math_round
      (baseMoisture climateZone + elevationMoistureEffect
       + rainfallMoistureEffect + coastalInfluence * 15 + (r - 0.5) * 20))) in
  (* Water level (availability) *)
  let riverProximity := Math_sin (lat * 0.1) * Math_cos (lng * 0.1) in
  let groundwaterEffect :=
    if lt elevation 100 then 20 else - elevation * 0.02 in
  r <- Math_random ;;
  let waterLevel :=
    Math_max 10 (Math_min 100 (Math_round
      (60 + (rainfall - 800) * 0.03 + riverProximity * 20
       + groundwaterEffect + coastalInfluence * 10 + (r - 0.5) * 25))) in
  (* Soil type determination *)
  let soilType := Some (dominantSoilType climateZone) in
  let soilType :=
    if gt elevation 2000 then Some rocky
    else if gt coastalInfluence 0.7 then Some sandy
    else if gt rainfall 2000 && gt temperature 20 then Some clay
    else if lt temperature 5 then Some peat
    else soilType in
  (* Random variation for soil type *)
  r <- Math_random ;;
  soilType <-
    (if lt r 0.2
     then r <- Math_random ;;
          ret (array_get soilTypes
                 (Math_floor (r * inject_Z (Z.of_nat (length soilTypes)))))
     else ret soilType) ;;
  (* Soil pH calculation *)
  let basePH :=
    if strict_eq soilType peat then 4.5
    else if strict_eq soilType sandy then 6.5
    else if strict_eq soilType clay then 7.2
    else if strict_eq soilType rocky then 7.8
    else 6.8 in
  r <- Math_random ;;
  let soilPH :=
    Math_max 3 (Math_min 9 (Math_round ((basePH + (r - 0.5) * 2) * 10) / 10)) in
  ret {| soilType := soilType;
         waterLevel := waterLevel;
         moistureLevel := moistureLevel;
         temperature := temperature;
         rainfall := rainfall;
         soilPH := soilPH;
         elevation := elevation |}.

(** The calls at latitude 35, longitude 30, a point far from every
    mountain region. *)
Definition run_35_30 (s : RandomSource) : GeographicData :=
  fst (getGeographicData 35 30 s).

End Geography.

(** The ranges that the specification documents for the fields of a
    [GeographicData]. *)
Definition in_documented_ranges (g : GeographicData) : Prop :=
  (is_integer (moistureLevel g)
   /\ 20 <= moistureLevel g /\ moistureLevel g <= 100)
  /\ (is_integer (waterLevel g) /\ 10 <= waterLevel g /\ waterLevel g <= 100)
  /\ (is_integer (rainfall g) /\ 100 <= rainfall g)
  /\ (is_integer (elevation g) /\ 0 <= elevation g)
  /\ (3 <= soilPH g /\ soilPH g <= 9)
  /\ (soilType g = Some clay \/ soilType g = Some sandy
      \/ soilType g = Some loam \/ soilType g = Some rocky
      \/ soilType g = Some peat).

(** ** Dependence on the random source *)

(** Two random sources that agree at every draw except draw [k]. *)
Definition differ_only_at (k : nat) (s1 s2 : RandomSource) : Prop :=
  forall n, n <> k -> s1 n = s2 n.

(** The source that returns [v] at draw [k] and the midpoint 0.5 at every
    other draw. *)
Definition midpoint_except (k : nat) (v : number) : RandomSource :=
  fun n => if Nat.eqb n k then v else 0.5.

(** [run] is sensitive to draw [k]: two sources in [0, 1) that differ at
    draw [k] only give results that [differs] tells apart. *)
Definition sensitive_to_draw (run : RandomSource -> GeographicData)
    (k : nat) (differs : GeographicData -> GeographicData -> Prop) : Prop :=
  exists s1 s2,
    unit_interval s1 /\ unit_interval s2 /\ differ_only_at k s1 s2
    /\ differs (run s1) (run s2).

(** No mountain region is within 10 degrees of [(lat, lng)]. *)
Definition far_from_mountains (lat lng : number) : bool :=
  forallb
    (fun region =>
       Qle_bool 100 (Math_pow2 (lat - region_lat region)
                     + Math_pow2 (lng - region_lng region)))
    mountainousRegions.

(** ** getCropSuitability *)

(** An entry of the [cropRequirements] table. *)
Record CropRequirement : Type := {
  tempRange : number * number;
  rainfallRange : number * number;
  preferredSoil : list SoilType;
  phRange : number * number
}.

(** The own properties of the object literal [cropRequirements]. *)
Definition cropRequirements : list (string * CropRequirement) :=
  [ ("Corn Production",
     {| tempRange := (15, 30); rainfallRange := (600, 1200);
        preferredSoil := [loam; clay]; phRange := (6.0, 7.0) |});
    ("Wheat Production",
     {| tempRange := (10, 25); rainfallRange := (400, 800);
        preferredSoil := [loam; clay]; phRange := (6.5, 7.5) |});
    ("Rice Production",
     {| tempRange := (20, 35); rainfallRange := (1000, 2500);
        preferredSoil := [clay; loam]; phRange := (5.5, 7.0) |});
    ("Coffee Production",
     {| tempRange := (18, 24); rainfallRange := (1200, 2000);
        preferredSoil := [loam; clay]; phRange := (6.0, 7.0) |});
    ("Soybean Production",
     {| tempRange := (20, 30); rainfallRange := (500, 1000);
        preferredSoil := [loam; clay]; phRange := (6.0, 7.5) |});
    ("Tomato Production",
     {| tempRange := (18, 27); rainfallRange := (400, 800);
        preferredSoil := [loam; sandy]; phRange := (6.0, 7.0) |});
    ("Potato Production",
     {| tempRange := (15, 20); rainfallRange := (400, 700);
        preferredSoil := [loam; sandy]; phRange := (5.5, 6.5) |});
    ("Dairy Production",
     {| tempRange := (5, 25); rainfallRange := (600, 1500);
        preferredSoil := [loam; clay]; phRange := (6.0, 7.5) |}) ].

(** [cropRequirements] is an object literal, so its prototype is
    [Object.prototype]: a key that is not an own property is looked up
    there.  These are the property names of [Object.prototype]; each holds a
    built-in function, except ["__proto__"], which yields the prototype
    object itself. *)
Definition Object_prototype : list string :=
  [ "constructor"; "hasOwnProperty"; "isPrototypeOf"; "propertyIsEnumerable";
    "toLocaleString"; "toString"; "valueOf"; "__proto__";
    "__defineGetter__"; "__defineSetter__";
    "__lookupGetter__"; "__lookupSetter__" ].

(** What [cropRequirements[key]] can evaluate to. *)
Inductive JsValue : Type :=
| Requirement (r : CropRequirement)
| Builtin (key : string)
| undefined.

(** [cropRequirements[key]]: an own property, else an inherited one, else
    [undefined]. *)
Definition get (o : list (string * CropRequirement)) (key : string) : JsValue :=
  match find (fun kv => String.eqb (fst kv) key) o with
  | Some kv => Requirement (snd kv)
  | None =>
      if existsb (String.eqb key) Object_prototype then Builtin key
      else undefined
  end.

(** [a || b]: [undefined] is the only falsy value of [JsValue]. *)
Definition or_else (a b : JsValue) : JsValue :=
  match a with
  | undefined => b
  | _ => a
  end.

(** [requirements.p[i]] and [requirements.p.includes(x)], for a property
    [p] of the table's entries.  A built-in object has no such property, so
    [requirements.p] is [undefined] there and the access to it throws. *)
Definition member {A} (p : CropRequirement -> A) (requirements : JsValue)
    : completion A :=
  match requirements with
  | Requirement r => Normal (p r)
  | Builtin _ => Throw TypeError
  | undefined => Throw TypeError
  end.

Definition includes (a : list SoilType) (v : option SoilType) : bool :=
  existsb (strict_eq v) a.

Definition tempScore (geoData : GeographicData) (requirements : JsValue)
    : completion number :=
  tempRange <-! member tempRange requirements ;;
  Normal
    (if ge (temperature geoData) (fst tempRange)
        && le (temperature geoData) (snd tempRange)
     then 100
     else Math_max 0
            (100 - Math_abs (temperature geoData
                             - (fst tempRange + snd tempRange) / 2) * 5)).

Definition rainfallScore (geoData : GeographicData) (requirements : JsValue)
    : completion number :=
  rainfallRange <-! member rainfallRange requirements ;;
  Normal
    (if ge (rainfall geoData) (fst rainfallRange)
        && le (rainfall geoData) (snd rainfallRange)
     then 100
     else Math_max 0
            (100 - Math_abs (rainfall geoData
                             - (fst rainfallRange + snd rainfallRange) / 2)
                   * 0.1)).

Definition soilScore (geoData : GeographicData) (requirements : JsValue)
    : completion number :=
  preferredSoil <-! member preferredSoil requirements ;;
  Normal (if includes preferredSoil (soilType geoData) then 100 else 60).

Definition phScore (geoData : GeographicData) (requirements : JsValue)
    : completion number :=
  phRange <-! member phRange requirements ;;
  Normal
    (if ge (soilPH geoData) (fst phRange) && le (soilPH geoData) (snd phRange)
     then 100
     else Math_max 0
            (100 - Math_abs (soilPH geoData
                             - (fst phRange + snd phRange) / 2) * 20)).

(** The [requirements] that [getCropSuitability] selects. *)
Definition requirementsFor (cropType : string) : JsValue :=
  or_else (get cropRequirements cropType)
          (get cropRequirements "Corn Production").

Definition getCropSuitability (geoData : GeographicData) (cropType : string)
    : completion number :=
  let requirements := requirementsFor cropType in
  tempScore <-! tempScore geoData requirements ;;
  rainfallScore <-! rainfallScore geoData requirements ;;
  soilScore <-! soilScore geoData requirements ;;
  phScore <-! phScore geoData requirements ;;
  Normal (Math_round ((tempScore + rainfallScore + soilScore + phScore) / 4)).

(** The eight predefined crop identifiers. *)
Definition knownCrops : list string := map fst cropRequirements.

(** Two attribute bundles agree on the fields [temperature], [rainfall],
    [soilType] and [soilPH]. *)
Definition agree_on_scored_fields (a b : GeographicData) : Prop :=
  temperature a == temperature b /\ rainfall a == rainfall b
  /\ soilType a = soilType b /\ soilPH a == soilPH b.



(** The scenario of the specification: temperature 22, rainfall 800, soil
    type loam, pH 6.5; the three fields it leaves open are parameters. *)
Definition corn_scenario (w m e : number) : GeographicData :=
  {| soilType := Some loam; waterLevel := w; moistureLevel := m;
     temperature := 22; rainfall := 800; soilPH := 6.5; elevation := e |}.

(** The latitude breakpoints as the specification words them: the zone of
    an absolute latitude [a]. *)
Inductive zone_of_abs_latitude (a : number) : string -> Prop :=
| zone_polar : 66.5 <= a -> zone_of_abs_latitude a "Polar"
| zone_subarctic : 60 <= a -> a < 66.5 -> zone_of_abs_latitude a "Subarctic"
| zone_continental :
    40 <= a -> a < 60 -> zone_of_abs_latitude a "Continental"
| zone_subtropical :
    30 <= a -> a < 40 -> zone_of_abs_latitude a "Subtropical"
| zone_tropical : 23.5 <= a -> a < 30 -> zone_of_abs_latitude a "Tropical"
| zone_equatorial : a < 23.5 -> zone_of_abs_latitude a "Equatorial".

(** A bundle is ideal for a table entry: temperature, rainfall and pH
    within the entry's ranges and the soil type among the preferred ones. *)
Definition ideal (r : CropRequirement) (g : GeographicData) : Prop :=
  (fst (tempRange r) <= temperature g /\ temperature g <= snd (tempRange r))
  /\ (fst (rainfallRange r) <= rainfall g
      /\ rainfall g <= snd (rainfallRange r))
  /\ includes (preferredSoil r) (soilType g) = true
  /\ (fst (phRange r) <= soilPH g /\ soilPH g <= snd (phRange r)).

(** The ranges of an entry are wide enough for the score just outside a
    range to lose more than 2 points. *)
Definition wide_ranges (r : CropRequirement) : bool :=
  Qle_bool (fst (tempRange r) + 1) (snd (tempRange r))
  && Qle_bool (fst (rainfallRange r) + 50) (snd (rainfallRange r))
  && Qle_bool (fst (phRange r) + 0.25) (snd (phRange r)).

(** ** getRegionName (components/OpenStreetMapSimple.tsx) *)

Definition getRegionName (lat lng : number) : string :=
  if gt lat 49 && gt lng (-125) && lt lng (-60) then "Canada"
  else if gt lat 25 && lt lat 49 && gt lng (-125) && lt lng (-65) then "USA"
  else if gt lat (-35) && lt lat 25 && gt lng (-120) && lt lng (-30)
       then "Central/South America"
  else if gt lat 35 && gt lng (-10) && lt lng 70 then "Europe/Middle East"
  else if gt lat (-35) && gt lng 70 && lt lng 180 then "Asia/Oceania"
  else if gt lat (-35) && gt lng (-20) && lt lng 55 then "Africa"
  else "International Waters".

(** ** The nine cells of a farm (Simple2DFarm in
       components/OpenStreetMapSimple.tsx) *)

(** [interface Farm]; an optional field is [None] when it is absent. *)
Module Farm.
Record Location : Type := { lat : number; lng : number }.
Record Farm : Type := {
  id : string;
  name : string;
  location : Location;
  type : string;
  country : string;
  description : string;
  geographicData : option GeographicData;
  suitabilityScore : option number
}.
End Farm.

(** [interface CellData]. *)
Module Cell.
Record CellData : Type := {
  id : number;
  cropType : string;
  temperature : number;
  nitrogen_level : number;
  organic_matter : number;
  soil_ph : number;
  irrigation_frequency : number;
  fertilizer_amount : number;
  health : number;
  elevation : number
}.
End Cell.

(** [Array.from({ length: n }, (_, i) => f i)] for a callback that draws
    from the random source: the calls are made for [i = 0 .. n - 1] in
    order. *)
Fixpoint Array_from_indices {A} (f : nat -> Rand A) (indices : list nat)
    : Rand (list A) :=
  match indices with
  | [] => ret []
  | i :: rest =>
      x <- f i ;;
      xs <- Array_from_indices f rest ;;
      ret (x :: xs)
  end.

Definition Array_from {A} (length : nat) (f : nat -> Rand A)
    : Rand (list A) :=
  Array_from_indices f (seq 0 length).

Section Cells.

Context {M : MathImpl}.

(** The callback that builds cell [i]. *)
Definition newCell (farm : Farm.Farm) (i : nat) : Rand Cell.CellData :=
  r <- Math_random ;;
  let cellOffsetLat := (r - 0.5) * 0.001 in
  r <- Math_random ;;
  let cellOffsetLng := (r - 0.5) * 0.001 in
  cellGeoData <-
    getGeographicData
      (Farm.lat (Farm.location farm) + cellOffsetLat)
      (Farm.lng (Farm.location farm) + cellOffsetLng) ;;
  let tempOptimality :=
    Math_max 0 (100 - Math_abs (temperature cellGeoData - 22) * 2) in
  let moistureOptimality := moistureLevel cellGeoData in
  let waterOptimality := waterLevel cellGeoData in
  let initialHealth :=
    Math_round
      ((tempOptimality + moistureOptimality + waterOptimality) / 3) in
  r <- Math_random ;;
  let temperature' := temperature cellGeoData + (r - 0.5) * 5 in
  r <- Math_random ;;
  let nitrogen_level := 40 + r * 40 in
  r <- Math_random ;;
  let organic_matter := 20 + r * 60 in
  r <- Math_random ;;
  let soil_ph := soilPH cellGeoData + (r - 0.5) * 1 in
  r <- Math_random ;;
  let irrigation_frequency := 2 + r * 5 in
  r <- Math_random ;;
  let fertilizer_amount := 100 + r * 200 in
  r <- Math_random ;;
  let health := Math_max 50 (Math_min 95 (initialHealth + r * 20)) in
  ret {| Cell.id := inject_Z (Z.of_nat i);
         Cell.cropType := Farm.type farm;
         Cell.temperature := temperature';
         Cell.nitrogen_level := nitrogen_level;
         Cell.organic_matter := organic_matter;
         Cell.soil_ph := soil_ph;
         Cell.irrigation_frequency := irrigation_frequency;
         Cell.fertilizer_amount := fertilizer_amount;
         Cell.health := health;
         Cell.elevation := elevation cellGeoData |}.

(** The body of the effect that initialises the cells: the value passed
    to [setCells]. *)
Definition newCells (farm : Farm.Farm) : Rand (list Cell.CellData) :=
  baseGeoData <-
    match Farm.geographicData farm with
    | Some g => ret g
    | None =>
        getGeographicData (Farm.lat (Farm.location farm))
          (Farm.lng (Farm.location farm))
    end ;;
  Array_from 9 (newCell farm).

End Cells.

(** The ranges that the comments of the initialiser give for a cell, with
    the pH and elevation that follow from what [getGeographicData]
    returns. *)
Definition cell_in_ranges (c : Cell.CellData) : Prop :=
  (40 <= Cell.nitrogen_level c /\ Cell.nitrogen_level c <= 80)
  /\ (20 <= Cell.organic_matter c /\ Cell.organic_matter c <= 80)
  /\ (2 <= Cell.irrigation_frequency c /\ Cell.irrigation_frequency c <= 7)
  /\ (100 <= Cell.fertilizer_amount c /\ Cell.fertilizer_amount c <= 300)
  /\ (50 <= Cell.health c /\ Cell.health c <= 95)
  /\ (3 <= Cell.soil_ph c /\ Cell.soil_ph c <= 9.3)
  /\ (is_integer (Cell.elevation c) /\ 0 <= Cell.elevation c).

(** ** A reference engine

    Rational approximations of the three engine functions, so that the
    model can be run: the square root to 8 decimal places, sine and cosine
    by their Taylor series after reduction of the argument to [-pi, pi],
    cut to [-1, 1]. *)

Module Reference.

Definition sqrt (x : number) : number :=
  inject_Z (Z.sqrt (Qfloor (x * inject_Z (10 ^ 16)))) / inject_Z (10 ^ 8).

Definition pi : number := 3.14159265358979323846.

Definition reduce (x : number) : number :=
  Qred (x - (2 * pi) * Math_round (x / (2 * pi))).

(** [series n term k x2]: the sum of [n] terms of an alternating series,
    starting at [term], the term after [t] of index [k] being
    [- t * x2 / ((k + 1) * (k + 2))]. *)
Fixpoint series (n : nat) (term : number) (k : Z) (x2 : number) : number :=
  match n with
  | O => 0
  | S n' =>
      Qred (term
            + series n' (Qred (- term * x2 / inject_Z ((k + 1) * (k + 2))))
                (k + 2) x2)
  end.

Definition unit_clamp (x : number) : number := Math_max (-1) (Math_min 1 x).

Definition sin (x : number) : number :=
  let y := reduce x in unit_clamp (series 12 y 1 (y * y)).

Definition cos (x : number) : number :=
  let y := reduce x in unit_clamp (series 12 1 0 (y * y)).

#[export] Instance engine : MathImpl :=
  {| Math_sqrt := sqrt; Math_sin := sin; Math_cos := cos |}.

End Reference.

(** * Properties *)

(** ** Arithmetic of the [Math] functions *)

Lemma ge_true (x y : number) : ge x y = true <-> y <= x.
Proof. unfold ge. apply Qle_bool_iff. Qed.

Lemma le_true (x y : number) : le x y = true <-> x <= y.
Proof. unfold le. apply Qle_bool_iff. Qed.

Lemma Qle_bool_false (x y : Q) : Qle_bool x y = false <-> y < x.
Proof.
  split; intro H.
  - apply Qnot_le_lt. intro L. apply Qle_bool_iff in L. congruence.
  - destruct (Qle_bool x y) eqn:E; [|reflexivity].
    apply Qle_bool_iff in E. exfalso. apply (Qlt_not_le _ _ H E).
Qed.

Lemma ge_false (x y : number) : ge x y = false <-> x < y.
Proof. unfold ge. apply Qle_bool_false. Qed.

Lemma lt_true (x y : number) : lt x y = true <-> x < y.
Proof. unfold lt. rewrite negb_true_iff. apply Qle_bool_false. Qed.

Lemma lt_false (x y : number) : lt x y = false <-> y <= x.
Proof. unfold lt. rewrite negb_false_iff. apply Qle_bool_iff. Qed.

Lemma gt_true (x y : number) : gt x y = true <-> y < x.
Proof. unfold gt. rewrite negb_true_iff. apply Qle_bool_false. Qed.

Lemma Qfloor_unique (x : Q) (z : Z) :
  inject_Z z <= x -> x < inject_Z (z + 1) -> Qfloor x = z.
Proof.
  intros Hl Hu.
  pose proof (Qfloor_le x) as Fl. pose proof (Qlt_floor x) as Fu.
  assert (A : inject_Z z < inject_Z (Qfloor x + 1)) by (eapply Qle_lt_trans; eauto).
  assert (B : inject_Z (Qfloor x) < inject_Z (z + 1)) by (eapply Qle_lt_trans; eauto).
  rewrite <- Zlt_Qlt in A, B. lia.
Qed.

Lemma Math_round_integer (x : number) : is_integer (Math_round x).
Proof. exists (Qfloor (x + (1 # 2))). reflexivity. Qed.

Lemma Math_round_ge (z : Z) (x : number) :
  inject_Z z <= x -> inject_Z z <= Math_round x.
Proof.
  intro H. unfold Math_round. rewrite <- Zle_Qle.
  rewrite <- (Qfloor_Z z). apply Qfloor_resp_le. lra.
Qed.

Lemma Math_round_le (z : Z) (x : number) :
  x <= inject_Z z -> Math_round x <= inject_Z z.
Proof.
  intro H. unfold Math_round. rewrite <- Zle_Qle.
  pose proof (Qfloor_le (x + (1 # 2))) as F.
  assert (A : inject_Z (Qfloor (x + (1 # 2))) < inject_Z (z + 1)).
  { rewrite inject_Z_plus. change (inject_Z 1) with 1. lra. }
  rewrite <- Zlt_Qlt in A. lia.
Qed.

Lemma Math_max_integer (x y : number) :
  is_integer x -> is_integer y -> is_integer (Math_max x y).
Proof.
  intros [a Ha] [b Hb]. unfold Math_max.
  destruct (Q.max_spec x y) as [[_ E] | [_ E]].
  - exists b. now rewrite E.
  - exists a. now rewrite E.
Qed.

Lemma Math_min_integer (x y : number) :
  is_integer x -> is_integer y -> is_integer (Math_min x y).
Proof.
  intros [a Ha] [b Hb]. unfold Math_min.
  destruct (Q.min_spec x y) as [[_ E] | [_ E]].
  - exists a. now rewrite E.
  - exists b. now rewrite E.
Qed.

Lemma is_integer_inject (z : Z) : is_integer (inject_Z z).
Proof. exists z. reflexivity. Qed.

(** Clamping: [Math.max(a, Math.min(b, x))] lies in [a, b] when [a <= b]. *)
Lemma clamp_range (a b x : number) :
  a <= b -> a <= Math_max a (Math_min b x) /\ Math_max a (Math_min b x) <= b.
Proof.
  intro H. unfold Math_max, Math_min. split.
  - apply Q.le_max_l.
  - apply Q.max_lub; [exact H | apply Q.le_min_l].
Qed.

(** ** getGeographicData: ranges of the returned fields *)

(** With a draw in [0, 1) the random index is one of [0..4], so the soil
    type read from [soilTypes] is defined. *)
Lemma random_soilType_defined (r : number) :
  0 <= r -> r < 1 ->
  exists t,
    array_get soilTypes
      (Math_floor (r * inject_Z (Z.of_nat (length soilTypes)))) = Some t.
Proof.
  intros H0 H1. unfold array_get, Math_floor.
  change (inject_Z (Z.of_nat (length soilTypes))) with 5.
  rewrite Qfloor_Z.
  assert (L : (0 <= Qfloor (r * 5))%Z).
  { change 0%Z with (Qfloor 0). apply Qfloor_resp_le. lra. }
  assert (U : (Qfloor (r * 5) < 5)%Z).
  { rewrite Zlt_Qlt. eapply Qle_lt_trans; [apply Qfloor_le|].
    change (inject_Z 5) with 5. lra. }
  rewrite Qeq_bool_refl.
  replace (ge (inject_Z (Qfloor (r * 5))) 0) with true
    by (symmetry; apply ge_true; change 0 with (inject_Z 0);
        rewrite <- Zle_Qle; exact L).
  cbn [andb].
  assert (C : (Qfloor (r * 5) = 0 \/ Qfloor (r * 5) = 1 \/ Qfloor (r * 5) = 2
               \/ Qfloor (r * 5) = 3 \/ Qfloor (r * 5) = 4)%Z) by lia.
  destruct C as [C | [C | [C | [C | C]]]]; rewrite C;
    eexists; vm_compute; reflexivity.
Qed.

(** C1.  For every latitude and longitude and every random source whose
    draws lie in [0, 1), the record returned by [getGeographicData] has
    [moistureLevel] an integer in [20, 100], [waterLevel] an integer in
    [10, 100], [rainfall] an integer >= 100, [elevation] an integer >= 0,
    [soilPH] in [3, 9] and [soilType] one of clay, sandy, loam, rocky,
    peat.  This holds whatever the engine's square root, sine and cosine
    return. *)
Theorem getGeographicData_ranges {M : MathImpl}
    (lat lng : number) (s : RandomSource) :
  unit_interval s ->
  in_documented_ranges (fst (getGeographicData lat lng s)).
Proof.
  intros Hs. unfold in_documented_ranges.
  assert (Soil : forall t : SoilType,
             Some t = Some clay \/ Some t = Some sandy \/ Some t = Some loam
             \/ Some t = Some rocky \/ Some t = Some peat)
    by (intros []; tauto).
  cbv [getGeographicData getElevationFromCoordinates bind ret Math_random].
  cbv beta iota zeta.
  destruct (lt (s 5%nat) 0.2) eqn:Override; cbv beta iota zeta; cbn [fst snd
    moistureLevel waterLevel rainfall elevation soilPH soilType].
  all: repeat split.
  all: try (apply Math_max_integer;
            [apply (is_integer_inject _)
            | first [ apply Math_min_integer;
                      [apply (is_integer_inject _) | apply Math_round_integer]
                    | apply Math_round_integer ]]).
  all: try (apply Q.le_max_l).
  all: try (apply clamp_range; reflexivity || (intro A; discriminate A)).
  all: try (apply Q.max_lub; [intro A; discriminate A | apply Q.le_min_l]).
  - destruct (Hs 6%nat) as [H0 H1].
    destruct (random_soilType_defined (s 6%nat) H0 H1) as [t Ht].
    rewrite Ht. apply Soil.
  - match goal with |- context [if ?a then _ else _] => destruct a end;
      repeat match goal with |- context [if ?a then _ else _] => destruct a end;
      apply Soil.
Qed.

Lemma getGeographicData_ranges_witness :
  unit_interval (fun _ => 0.5)
  /\ in_documented_ranges
       (fst (getGeographicData (M := Reference.engine)
               42.0308 (-93.6319) (fun _ => 0.5))).
Proof.
  split.
  - intro n. split; [discriminate | reflexivity].
  - apply (getGeographicData_ranges (M := Reference.engine)
             42.0308 (-93.6319) (fun _ => 0.5)).
    intro n. split; [discriminate | reflexivity].
Defined.


(** ** The reference engine satisfies [MathLaws] *)

Lemma Reference_sqrt_mono (x y : number) :
  x <= y -> Reference.sqrt x <= Reference.sqrt y.
Proof.
  intro H. unfold Reference.sqrt.
  apply Qmult_le_compat_r; [| vm_compute; discriminate].
  rewrite <- Zle_Qle. apply Z.sqrt_le_mono. apply Qfloor_resp_le.
  apply Qmult_le_compat_r; [exact H | vm_compute; discriminate].
Qed.

Lemma Reference_sqrt_square (n : Z) :
  (0 <= n)%Z -> Reference.sqrt (inject_Z (n * n)) == inject_Z n.
Proof.
  intro H. unfold Reference.sqrt.
  rewrite <- inject_Z_mult, Qfloor_Z.
  replace (n * n * 10 ^ 16)%Z with ((n * 10 ^ 8) * (n * 10 ^ 8))%Z by ring.
  rewrite Z.sqrt_square by lia.
  rewrite inject_Z_mult. field. vm_compute. discriminate.
Qed.

Lemma Reference_unit_clamp (x : number) :
  -1 <= Reference.unit_clamp x <= 1.
Proof.
  unfold Reference.unit_clamp.
  destruct (clamp_range (-1) 1 x) as [A B]; [vm_compute; discriminate|].
  split; assumption.
Qed.

#[export] Instance Reference_laws : MathLaws Reference.engine.
Proof.
  constructor.
  - exact Reference_sqrt_mono.
  - exact Reference_sqrt_square.
  - intro x. apply Reference_unit_clamp.
  - intro x. apply Reference_unit_clamp.
Qed.

(** ** getGeographicData depends on the random source *)

Section Jitter.

Context {M : MathImpl} {L : MathLaws M}.

Lemma addRegion_far (lat lng b : number) (region : MountainRegion) :
  100 <= Math_pow2 (lat - region_lat region)
         + Math_pow2 (lng - region_lng region) ->
  addRegion lat lng b region = b.
Proof.
  intro H. unfold addRegion.
  set (d2 := Math_pow2 (lat - region_lat region)
             + Math_pow2 (lng - region_lng region)) in *.
  assert (D : 10 <= Math_sqrt d2).
  { pose proof (Math_sqrt_square 10 ltac:(lia)) as S.
    pose proof (Math_sqrt_mono (inject_Z (10 * 10)) d2 H) as Mo.
    rewrite S in Mo. exact Mo. }
  apply lt_false in D. rewrite D. reflexivity.
Qed.

Lemma getElevation_far (lat lng : number) :
  far_from_mountains lat lng = true ->
  getElevationFromCoordinates lat lng
  = (r <- Math_random ;;
     ret (Math_max 0 (Math_round (200 + (r - 0.5) * 400)))).
Proof.
  intro F. unfold getElevationFromCoordinates.
  assert (E : fold_left (addRegion lat lng) mountainousRegions 200 = 200).
  { unfold far_from_mountains, mountainousRegions in *.
    cbn [forallb] in F. rewrite !andb_true_iff in F.
    destruct F as (F1 & F2 & F3 & F4 & _).
    apply Qle_bool_iff in F1, F2, F3, F4.
    cbn [fold_left].
    rewrite (addRegion_far _ _ _ _ F1), (addRegion_far _ _ _ _ F2),
      (addRegion_far _ _ _ _ F3), (addRegion_far _ _ _ _ F4).
    reflexivity. }
  rewrite E. reflexivity.
Qed.

(** Clamped roundings of two numbers that are at least 1 apart differ when
    both numbers lie within the clamp. *)
Lemma clamp_round_differ (lo hi : Z) (x y : number) :
  inject_Z lo <= x -> y <= inject_Z hi -> x + 1 <= y ->
  ~ Math_max (inject_Z lo) (Math_min (inject_Z hi) (Math_round x))
    == Math_max (inject_Z lo) (Math_min (inject_Z hi) (Math_round y)).
Proof.
  intros Hlo Hhi Hxy.
  assert (Lx : inject_Z lo <= Math_round x) by (apply Math_round_ge; exact Hlo).
  assert (Uy : Math_round y <= inject_Z hi) by (apply Math_round_le; exact Hhi).
  assert (S : Math_round x + 1 <= Math_round y).
  { unfold Math_round. change 1 with (inject_Z 1).
    rewrite <- inject_Z_plus, <- Zle_Qle.
    rewrite <- (Qfloor_unique (x + 1 + (1 # 2)) (Qfloor (x + (1 # 2)) + 1)).
    - apply Qfloor_resp_le. lra.
    - rewrite inject_Z_plus. pose proof (Qfloor_le (x + (1 # 2))).
      change (inject_Z 1) with 1. lra.
    - rewrite !inject_Z_plus. pose proof (Qlt_floor (x + (1 # 2))) as F.
      rewrite inject_Z_plus in F. change (inject_Z 1) with 1 in *. lra. }
  unfold Math_max, Math_min.
  rewrite (Q.min_r (inject_Z hi) (Math_round x)) by lra.
  rewrite (Q.min_r (inject_Z hi) (Math_round y)) by lra.
  rewrite (Q.max_r (inject_Z lo) (Math_round x)) by lra.
  rewrite (Q.max_r (inject_Z lo) (Math_round y)) by lra.
  intro E. rewrite E in S. lra.
Qed.

Lemma midpoint_except_unit (k : nat) (v : number) :
  0 <= v -> v < 1 -> unit_interval (midpoint_except k v).
Proof.
  intros H0 H1 n. unfold midpoint_except.
  destruct (Nat.eqb n k); split; auto; [discriminate | reflexivity].
Qed.

Lemma midpoint_except_differ (k : nat) (v w : number) :
  differ_only_at k (midpoint_except k v) (midpoint_except k w).
Proof.
  intros n H. unfold midpoint_except.
  apply Nat.eqb_neq in H. rewrite H. reflexivity.
Qed.

Lemma sensitive_at_midpoint (run : RandomSource -> GeographicData)
    (k : nat) (differs : GeographicData -> GeographicData -> Prop)
    (v w : number) :
  0 <= v -> v < 1 -> 0 <= w -> w < 1 ->
  differs (run (midpoint_except k v)) (run (midpoint_except k w)) ->
  sensitive_to_draw run k differs.
Proof.
  intros. exists (midpoint_except k v), (midpoint_except k w).
  split; [apply midpoint_except_unit; assumption |].
  split; [apply midpoint_except_unit; assumption |].
  split; [apply midpoint_except_differ | assumption].
Qed.

Lemma unit_product (a b : number) :
  -1 <= a <= 1 -> -1 <= b <= 1 -> -1 <= a * b <= 1.
Proof. intros [A1 A2] [B1 B2]. split; nra. Qed.

Ltac run_at_midpoint v w :=
  apply (sensitive_at_midpoint _ _ _ v w);
  [discriminate | reflexivity | discriminate | reflexivity | ];
  unfold run_35_30, getGeographicData;
  rewrite getElevation_far by reflexivity.

Lemma temperature_sensitive :
  sensitive_to_draw run_35_30 1 (fun a b => ~ temperature a == temperature b).
Proof. run_at_midpoint 0.5 0.9. vm_compute. discriminate. Qed.

Lemma rainfall_sensitive :
  sensitive_to_draw run_35_30 2 (fun a b => ~ rainfall a == rainfall b).
Proof. run_at_midpoint 0.5 0.75. vm_compute. discriminate. Qed.

Lemma moistureLevel_sensitive :
  sensitive_to_draw run_35_30 3
    (fun a b => ~ moistureLevel a == moistureLevel b).
Proof. run_at_midpoint 0.5 0.75. vm_compute. discriminate. Qed.

(** The river term is not computed: whatever sine and cosine return within
    [-1, 1], the water level before jitter lies in [42, 82], so a jitter of
    -10 and one of +10 both stay within the clamp. *)
Lemma waterLevel_sensitive :
  sensitive_to_draw run_35_30 4 (fun a b => ~ waterLevel a == waterLevel b).
Proof.
  run_at_midpoint 0.1 0.9.
  cbv [bind ret Math_random midpoint_except Nat.eqb].
  change (lt 0.5 0.2) with false. cbv beta iota. cbn [fst waterLevel].
  pose proof (unit_product _ _ (Math_sin_range (35 * 0.1))
                (Math_cos_range (30 * 0.1))) as River.
  set (river := Math_sin (35 * 0.1) * Math_cos (30 * 0.1)) in *.
  match goal with
  | |- context [60 + (?R - 800) * 0.03 + river * 20 + ?G + ?C * 10 + _] =>
      let r := eval vm_compute in R in
      let g := eval vm_compute in G in
      let c := eval vm_compute in C in
      change R with r; change G with g; change C with c
  end.
  apply (clamp_round_differ 10 100);
    change (inject_Z 10) with 10; change (inject_Z 100) with 100; lra.
Qed.

Lemma soilType_sensitive :
  sensitive_to_draw run_35_30 5 (fun a b => soilType a <> soilType b).
Proof. run_at_midpoint 0.5 0.1. vm_compute. discriminate. Qed.

Lemma soilPH_sensitive :
  sensitive_to_draw run_35_30 6 (fun a b => ~ soilPH a == soilPH b).
Proof. run_at_midpoint 0.5 0.9. vm_compute. discriminate. Qed.

(** C6.  [getGeographicData] is not a function of its coordinates alone:
    there are coordinates at which two random sources with draws in [0, 1)
    give different records, and at which the result depends on each of the
    temperature, rainfall, moisture, water-level, soil-type-override and pH
    draws taken alone (draws 1 to 6; draw 0 is the elevation jitter).  This
    holds for every engine that satisfies [MathLaws]. *)
Theorem getGeographicData_depends_on_random_source :
  exists lat lng : number,
    let run := fun s => fst (getGeographicData lat lng s) in
    (exists s1 s2,
        unit_interval s1 /\ unit_interval s2 /\ run s1 <> run s2)
    /\ sensitive_to_draw run 1 (fun a b => ~ temperature a == temperature b)
    /\ sensitive_to_draw run 2 (fun a b => ~ rainfall a == rainfall b)
    /\ sensitive_to_draw run 3
         (fun a b => ~ moistureLevel a == moistureLevel b)
    /\ sensitive_to_draw run 4 (fun a b => ~ waterLevel a == waterLevel b)
    /\ sensitive_to_draw run 5 (fun a b => soilType a <> soilType b)
    /\ sensitive_to_draw run 6 (fun a b => ~ soilPH a == soilPH b).
Proof.
  exists 35, 30. cbv zeta. fold run_35_30.
  split; [| repeat split].
  - destruct temperature_sensitive as (s1 & s2 & U1 & U2 & _ & D).
    exists s1, s2. split; [exact U1 | split; [exact U2 |]].
    intro E. apply D. change (run_35_30 s1 = run_35_30 s2) in E.
    destruct E. apply Qeq_refl.
  - exact temperature_sensitive.
  - exact rainfall_sensitive.
  - exact moistureLevel_sensitive.
  - exact waterLevel_sensitive.
  - exact soilType_sensitive.
  - exact soilPH_sensitive.
Qed.

End Jitter.

Lemma getGeographicData_depends_on_random_source_witness :
  MathLaws Reference.engine
  /\ exists lat lng : number,
       let run := fun s => fst (getGeographicData (M := Reference.engine) lat lng s) in
       (exists s1 s2,
           unit_interval s1 /\ unit_interval s2 /\ run s1 <> run s2)
       /\ sensitive_to_draw run 1 (fun a b => ~ temperature a == temperature b)
       /\ sensitive_to_draw run 2 (fun a b => ~ rainfall a == rainfall b)
       /\ sensitive_to_draw run 3
            (fun a b => ~ moistureLevel a == moistureLevel b)
       /\ sensitive_to_draw run 4 (fun a b => ~ waterLevel a == waterLevel b)
       /\ sensitive_to_draw run 5 (fun a b => soilType a <> soilType b)
       /\ sensitive_to_draw run 6 (fun a b => ~ soilPH a == soilPH b).
Proof.
  split.
  - exact Reference_laws.
  - exact (getGeographicData_depends_on_random_source
             (M := Reference.engine) (L := Reference_laws)).
Defined.

(** ** getCropSuitability *)

(** A score of the shape used for temperature, rainfall and pH lies in
    [0, 100] when the penalty factor [k] is not negative. *)
Lemma range_score_bounds (x lo hi k : number) :
  0 <= k ->
  let v := if ge x lo && le x hi then 100
           else Math_max 0 (100 - Math_abs (x - (lo + hi) / 2) * k) in
  0 <= v /\ v <= 100.
Proof.
  intros Hk v. subst v. destruct (ge x lo && le x hi).
  - split; discriminate.
  - unfold Math_max, Math_abs. split.
    + apply Q.le_max_l.
    + apply Q.max_lub; [discriminate|].
      pose proof (Qabs_nonneg (x - (lo + hi) / 2)) as A.
      assert (0 <= Qabs (x - (lo + hi) / 2) * k)
        by (apply Qmult_le_0_compat; assumption).
      lra.
Qed.

(** The selected requirements are an entry of the table, unless the
    identifier names a property of [Object.prototype]. *)
Lemma requirementsFor_cases (cropType : string) :
  (exists r, requirementsFor cropType = Requirement r)
  \/ (In cropType Object_prototype
      /\ requirementsFor cropType = Builtin cropType).
Proof.
  unfold requirementsFor, get.
  destruct (find (fun kv => String.eqb (fst kv) cropType) cropRequirements)
    as [kv|] eqn:F.
  - left. eexists. reflexivity.
  - destruct (existsb (String.eqb cropType) Object_prototype) eqn:E.
    + right. split; [|reflexivity].
      apply existsb_exists in E. destruct E as (k & Hin & Heq).
      apply String.eqb_eq in Heq. subst k. exact Hin.
    + left. eexists. cbn. reflexivity.
Qed.

Lemma requirementsFor_not_inherited (cropType : string) :
  ~ In cropType Object_prototype ->
  exists r, requirementsFor cropType = Requirement r.
Proof.
  intro H. destruct (requirementsFor_cases cropType) as [E | [I _]].
  - exact E.
  - contradiction.
Qed.

(** On an entry of the table the score is the rounded mean of four
    component scores, each in [0, 100], the soil score being at least 60. *)
Lemma score_on_requirement (geoData : GeographicData) (cropType : string)
    (r : CropRequirement) :
  requirementsFor cropType = Requirement r ->
  exists t f so p : number,
    getCropSuitability geoData cropType
    = Normal (Math_round ((t + f + so + p) / 4))
    /\ (0 <= t /\ t <= 100) /\ (0 <= f /\ f <= 100)
    /\ (60 <= so /\ so <= 100) /\ (0 <= p /\ p <= 100).
Proof.
  intro E. unfold getCropSuitability. rewrite E.
  unfold tempScore, rainfallScore, soilScore, phScore, member, cbind.
  do 4 eexists. split; [reflexivity|].
  split; [apply range_score_bounds; discriminate|].
  split; [apply range_score_bounds; discriminate|].
  split; [|apply range_score_bounds; discriminate].
  destruct (includes (preferredSoil r) (soilType geoData));
    split; discriminate.
Qed.

(** For every attribute bundle and every identifier that does not name a
    property of [Object.prototype], the call returns an integer in
    [15, 100]. *)
Lemma getCropSuitability_score_range (geoData : GeographicData)
    (cropType : string) :
  ~ In cropType Object_prototype ->
  exists z : Z,
    getCropSuitability geoData cropType = Normal (inject_Z z)
    /\ (15 <= z <= 100)%Z.
Proof.
  intro H. destruct (requirementsFor_not_inherited cropType H) as [r E].
  destruct (score_on_requirement geoData cropType r E)
    as (t & f & so & p & Eq & [T0 T1] & [F0 F1] & [S0 S1] & [P0 P1]).
  exists (Qfloor ((t + f + so + p) / 4 + (1 # 2))).
  split; [exact Eq|].
  pose proof (Math_round_ge 15 ((t + f + so + p) / 4)) as L.
  pose proof (Math_round_le 100 ((t + f + so + p) / 4)) as U.
  unfold Math_round in L, U. rewrite <- Zle_Qle in L, U.
  split; [apply L | apply U].
  - change (inject_Z 15) with 15. unfold Qdiv. change (/ 4) with (1 # 4). lra.
  - change (inject_Z 100) with 100. unfold Qdiv. change (/ 4) with (1 # 4).
    lra.
Qed.

Lemma knownCrops_not_inherited (cropType : string) :
  In cropType knownCrops -> ~ In cropType Object_prototype.
Proof.
  intros K I. cbn in K, I.
  repeat (destruct K as [K | K]; [subst cropType;
    repeat (destruct I as [I | I]; [discriminate I|]); exact I |]).
  exact K.
Qed.

(** An identifier that is neither predefined nor the name of a property of
    [Object.prototype] is scored as ['Corn Production']. *)
Lemma getCropSuitability_fallback (geoData : GeographicData)
    (cropType : string) :
  ~ In cropType knownCrops -> ~ In cropType Object_prototype ->
  getCropSuitability geoData cropType
  = getCropSuitability geoData "Corn Production".
Proof.
  intros K I. unfold getCropSuitability.
  replace (requirementsFor cropType)
    with (requirementsFor "Corn Production"); [reflexivity|].
  unfold requirementsFor at 2. unfold get.
  destruct (find (fun kv => String.eqb (fst kv) cropType) cropRequirements)
    as [kv|] eqn:F.
  - exfalso. apply find_some in F. destruct F as [Hin Heq].
    apply String.eqb_eq in Heq. apply K. subst cropType.
    unfold knownCrops. apply in_map. exact Hin.
  - destruct (existsb (String.eqb cropType) Object_prototype) eqn:E.
    + exfalso. apply I. apply existsb_exists in E.
      destruct E as (k & Hin & Heq). apply String.eqb_eq in Heq.
      subst k. exact Hin.
    + reflexivity.
Qed.

(** The score of shape temperature / rainfall / pH respects equality of
    numbers. *)
Lemma range_score_wd (x y lo hi k : number) :
  x == y ->
  (if ge x lo && le x hi then 100
   else Math_max 0 (100 - Math_abs (x - (lo + hi) / 2) * k))
  == (if ge y lo && le y hi then 100
      else Math_max 0 (100 - Math_abs (y - (lo + hi) / 2) * k)).
Proof.
  intro E. unfold ge, le, Math_max, Math_abs.
  rewrite <- (Qleb_comp lo lo (Qeq_refl lo) x y E).
  rewrite <- (Qleb_comp x y E hi hi (Qeq_refl hi)).
  destruct (Qle_bool lo x && Qle_bool x hi); [reflexivity|].
  rewrite E. reflexivity.
Qed.



(** C10.  [getCropSuitability] reads only [temperature], [rainfall],
    [soilType] and [soilPH]: two attribute bundles that agree on these four
    fields (as numbers, for the three numeric ones) have the same outcome
    for every crop identifier, whatever their [waterLevel], [moistureLevel]
    and [elevation]. *)
Theorem getCropSuitability_reads_four_fields
    (geoData1 geoData2 : GeographicData) (cropType : string) :
  agree_on_scored_fields geoData1 geoData2 ->
  getCropSuitability geoData1 cropType = getCropSuitability geoData2 cropType.
Proof.
  intros (Et & Er & Es & Ep). unfold getCropSuitability.
  destruct (requirementsFor cropType) as [r | key |]; try reflexivity.
  unfold tempScore, rainfallScore, soilScore, phScore, member, cbind.
  rewrite Es. f_equal. unfold Math_round. f_equal.
  apply Qfloor_comp.
  rewrite (range_score_wd _ _ (fst (tempRange r)) (snd (tempRange r)) 5 Et).
  rewrite (range_score_wd _ _ (fst (rainfallRange r))
             (snd (rainfallRange r)) 0.1 Er).
  rewrite (range_score_wd _ _ (fst (phRange r)) (snd (phRange r)) 20 Ep).
  reflexivity.
Qed.


Lemma getCropSuitability_reads_four_fields_witness :
  agree_on_scored_fields (corn_scenario 60 65 200) (corn_scenario 10 20 3000)
  /\ getCropSuitability (corn_scenario 60 65 200) "Potato Production"
     = getCropSuitability (corn_scenario 10 20 3000) "Potato Production".
Proof.
  assert (A : agree_on_scored_fields (corn_scenario 60 65 200)
                (corn_scenario 10 20 3000))
    by (repeat split; reflexivity).
  split.
  - exact A.
  - apply (getCropSuitability_reads_four_fields
             (corn_scenario 60 65 200) (corn_scenario 10 20 3000)
             "Potato Production" A).
Defined.

(** C8.  For the attribute bundle with temperature 22, rainfall 800, soil
    type loam and pH 6.5, scored against ['Corn Production'] (temperature
    range [15, 30], rainfall range [600, 1200], preferred soils loam and
    clay, pH range [6.0, 7.0]), each of the four component scores is 100
    and the overall score is 100. *)
Theorem corn_scenario_scores_100 (w m e : number) :
  let geoData := corn_scenario w m e in
  let requirements := requirementsFor "Corn Production" in
  requirements
  = Requirement {| tempRange := (15, 30); rainfallRange := (600, 1200);
                   preferredSoil := [loam; clay]; phRange := (6.0, 7.0) |}
  /\ tempScore geoData requirements = Normal 100
  /\ rainfallScore geoData requirements = Normal 100
  /\ soilScore geoData requirements = Normal 100
  /\ phScore geoData requirements = Normal 100
  /\ getCropSuitability geoData "Corn Production" = Normal 100.
Proof. cbv zeta. repeat split; reflexivity. Qed.

(** ** The identifiers that name a property of [Object.prototype] *)

(** C2 (the code departs from it).  The call has an error path: with the
    crop identifier ["constructor"] the table lookup yields the built-in
    [Object] function, which is truthy and has no [tempRange], and reading
    [requirements.tempRange[0]] throws a [TypeError], whatever the
    attribute bundle. *)
Theorem getCropSuitability_throws_on_constructor (geoData : GeographicData) :
  getCropSuitability geoData "constructor" = Throw TypeError.
Proof. reflexivity. Qed.

(** C4 (the code departs from it).  ["constructor"] is not one of the
    eight predefined identifiers, yet it is not scored as
    ['Corn Production']: the former call throws, the latter returns an
    integer score. *)
Theorem getCropSuitability_constructor_is_not_corn (geoData : GeographicData) :
  existsb (String.eqb "constructor") knownCrops = false
  /\ getCropSuitability geoData "constructor" = Throw TypeError
  /\ exists z : Z,
       getCropSuitability geoData "Corn Production" = Normal (inject_Z z).
Proof.
  split; [reflexivity|]. split; [reflexivity|].
  destruct (getCropSuitability_score_range geoData "Corn Production")
    as (z & E & _).
  - apply knownCrops_not_inherited. cbn. tauto.
  - exists z. exact E.
Qed.

(** C9 (the code departs from it).  For each of the twelve property names
    of [Object.prototype] the call returns no score at all, so no lower
    bound holds there: it throws a [TypeError], whatever the attribute
    bundle. *)
Theorem getCropSuitability_no_score_on_inherited_keys
    (geoData : GeographicData) :
  Forall (fun key => getCropSuitability geoData key = Throw TypeError)
         Object_prototype.
Proof. repeat constructor. Qed.

(** ** getClimateZone *)

Lemma getClimateZone_abs (lat1 lat2 : number) :
  Qabs lat1 == Qabs lat2 -> getClimateZone lat1 = getClimateZone lat2.
Proof.
  intro E. unfold getClimateZone, Math_abs, ge.
  rewrite !(Qleb_comp _ _ (Qeq_refl _) _ _ E). reflexivity.
Qed.

(** C3.  [getClimateZone] classifies a latitude by its absolute value
    alone, with the breakpoints >= 66.5 Polar, >= 60 Subarctic, >= 40
    Continental, >= 30 Subtropical, >= 23.5 Tropical, otherwise Equatorial.
    In particular 66.5 and -66.5 are Polar, 66.49 is Subarctic, and 42.0308
    is Continental, with base temperature 15 and base rainfall 800. *)
Theorem getClimateZone_classification :
  (forall lat, zone_of_abs_latitude (Qabs lat) (name (getClimateZone lat)))
  /\ (forall lat1 lat2,
        Qabs lat1 == Qabs lat2 -> getClimateZone lat1 = getClimateZone lat2)
  /\ name (getClimateZone 66.5) = "Polar"
  /\ name (getClimateZone (-66.5)) = "Polar"
  /\ name (getClimateZone 66.49) = "Subarctic"
  /\ name (getClimateZone 42.0308) = "Continental"
  /\ baseTemperature (getClimateZone 42.0308) = 15
  /\ baseRainfall (getClimateZone 42.0308) = 800.
Proof.
  split; [| split; [exact getClimateZone_abs | repeat split; reflexivity]].
  intro lat. unfold getClimateZone, Math_abs.
  destruct (ge (Qabs lat) 66.5) eqn:E1;
    [apply ge_true in E1; now constructor | apply ge_false in E1].
  destruct (ge (Qabs lat) 60) eqn:E2;
    [apply ge_true in E2; now constructor | apply ge_false in E2].
  destruct (ge (Qabs lat) 40) eqn:E3;
    [apply ge_true in E3; now constructor | apply ge_false in E3].
  destruct (ge (Qabs lat) 30) eqn:E4;
    [apply ge_true in E4; now constructor | apply ge_false in E4].
  destruct (ge (Qabs lat) 23.5) eqn:E5;
    [apply ge_true in E5; now constructor | apply ge_false in E5].
  now constructor.
Qed.

Lemma getClimateZone_classification_witness :
  Qabs 45 == Qabs (-45) /\ getClimateZone 45 = getClimateZone (-45).
Proof.
  split.
  - reflexivity.
  - apply (proj1 (proj2 getClimateZone_classification) 45 (-45)).
    reflexivity.
Defined.

(** ** getCoastalInfluence *)

Ltac qlra :=
  unfold Qdiv in *; change (/ 60) with (1 # 60) in *;
  change (/ 20) with (1 # 20) in *; lra.

Lemma Qceiling_unique (x : Q) (z : Z) :
  inject_Z (z - 1) < x -> x <= inject_Z z -> Qceiling x = z.
Proof.
  intros Hl Hu. unfold Qceiling.
  rewrite (Qfloor_unique (- x) (- z)); [lia | |].
  - rewrite inject_Z_opp. lra.
  - replace (- z + 1)%Z with (- (z - 1))%Z by lia. rewrite inject_Z_opp. lra.
Qed.

Lemma rem_wd (x x' y : number) : x == x' -> rem x y == rem x' y.
Proof.
  intro E. unfold rem, trunc.
  assert (D : x / y == x' / y) by (rewrite E; reflexivity).
  rewrite (Qleb_comp 0 0 (Qeq_refl 0) _ _ D).
  rewrite (Qfloor_comp _ _ D), (Qceiling_comp _ _ D), E. reflexivity.
Qed.

(** The remainder modulo 60 of a non-negative number in
    [60 n, 60 n + 60). *)
Lemma rem60_nonneg (x : number) (n : Z) :
  0 <= x -> 60 * inject_Z n <= x -> x < 60 * inject_Z n + 60 ->
  rem x 60 == x - 60 * inject_Z n.
Proof.
  intros H0 Hl Hu. unfold rem, trunc.
  assert (P : 0 <= x / 60) by qlra.
  apply Qle_bool_iff in P. rewrite P.
  rewrite (Qfloor_unique (x / 60) n); [reflexivity | qlra |].
  rewrite inject_Z_plus. change (inject_Z 1) with 1. qlra.
Qed.

(** The remainder modulo 60 of a non-positive number in
    (60 n - 60, 60 n]: it keeps the sign of the dividend. *)
Lemma rem60_nonpos (x : number) (n : Z) :
  x <= 0 -> 60 * inject_Z n - 60 < x -> x <= 60 * inject_Z n ->
  rem x 60 == x - 60 * inject_Z n.
Proof.
  intros H0 Hl Hu. unfold rem, trunc.
  assert (C : Qceiling (x / 60) = n).
  { apply Qceiling_unique; [| qlra].
    unfold Z.sub. rewrite inject_Z_plus. change (inject_Z (- (1))) with (-1).
    qlra. }
  destruct (Qle_bool 0 (x / 60)) eqn:P; [| rewrite C; reflexivity].
  apply Qle_bool_iff in P.
  assert (Z0 : x / 60 == 0) by (apply Qle_antisym; [qlra | exact P]).
  rewrite (Qceiling_comp _ _ Z0) in C. rewrite (Qfloor_comp _ _ Z0).
  change (Qceiling 0) with 0%Z in C. change (Qfloor 0) with 0%Z.
  rewrite <- C. reflexivity.
Qed.

Lemma floor60_bounds (x : number) :
  60 * inject_Z (Qfloor (x / 60)) <= x
  /\ x < 60 * inject_Z (Qfloor (x / 60)) + 60.
Proof.
  pose proof (Qfloor_le (x / 60)) as L. pose proof (Qlt_floor (x / 60)) as U.
  rewrite inject_Z_plus in U. change (inject_Z 1) with 1 in U.
  split; qlra.
Qed.

Lemma ceiling60_bounds (x : number) :
  60 * inject_Z (Qceiling (x / 60)) - 60 < x
  /\ x <= 60 * inject_Z (Qceiling (x / 60)).
Proof.
  pose proof (Qle_ceiling (x / 60)) as L.
  pose proof (Qceiling_lt (x / 60)) as U.
  unfold Z.sub in U. rewrite inject_Z_plus in U.
  change (inject_Z (- (1))) with (-1) in U.
  split; qlra.
Qed.

Lemma getCoastalInfluence_range (lat lng : number) :
  0 <= getCoastalInfluence lat lng /\ getCoastalInfluence lat lng <= 1.
Proof.
  unfold getCoastalInfluence, Math_max, Math_min, Math_abs. split.
  - apply Q.le_max_l.
  - apply Q.max_lub; [discriminate|].
    assert (P : 0 <= Qmin (Qabs (rem lng 60)) (Qabs (rem (lng + 180) 60)))
      by (apply Q.min_glb; apply Qabs_nonneg).
    qlra.
Qed.

(** The influence as a function of the two remainders. *)
Lemma getCoastalInfluence_of_rems (lat lng a b : number) :
  rem lng 60 == a -> rem (lng + 180) 60 == b ->
  getCoastalInfluence lat lng
  == Qmax 0 ((20 - Qmin (Qabs a) (Qabs b)) / 20).
Proof.
  intros Ea Eb. unfold getCoastalInfluence, Math_max, Math_min, Math_abs.
  rewrite Ea, Eb. reflexivity.
Qed.

(** The two remainders that [getCoastalInfluence] takes, for a number
    [x] whose shift by [60 j] is non-negative, respectively non-positive. *)
Lemma rem60_shift_nonneg (x : number) (k j : Z) :
  60 * inject_Z k <= x -> x < 60 * inject_Z k + 60 ->
  0 <= x + 60 * inject_Z j ->
  rem (x + 60 * inject_Z j) 60 == x - 60 * inject_Z k.
Proof.
  intros Hl Hu H0.
  rewrite (rem60_nonneg (x + 60 * inject_Z j) (k + j)).
  - rewrite inject_Z_plus. lra.
  - exact H0.
  - rewrite inject_Z_plus. lra.
  - rewrite inject_Z_plus. lra.
Qed.

Lemma rem60_shift_nonpos (x : number) (k j : Z) :
  60 * inject_Z k - 60 < x -> x <= 60 * inject_Z k ->
  x + 60 * inject_Z j <= 0 ->
  rem (x + 60 * inject_Z j) 60 == x - 60 * inject_Z k.
Proof.
  intros Hl Hu H0.
  rewrite (rem60_nonpos (x + 60 * inject_Z j) (k + j)).
  - rewrite inject_Z_plus. lra.
  - exact H0.
  - rewrite inject_Z_plus. lra.
  - rewrite inject_Z_plus. lra.
Qed.

Lemma shift_by (x : number) (j : Z) (y : number) :
  y == x + 60 * inject_Z j -> rem y 60 == rem (x + 60 * inject_Z j) 60.
Proof. apply rem_wd. Qed.

(** At a non-negative longitude both remainders are the distance to the
    multiple of 60 below. *)
Lemma getCoastalInfluence_nonneg (lat lng : number) :
  0 <= lng ->
  getCoastalInfluence lat lng
  == Qmax 0 ((20 - (lng - 60 * inject_Z (Qfloor (lng / 60)))) / 20).
Proof.
  intro H0. destruct (floor60_bounds lng) as [Bl Bu].
  set (k := Qfloor (lng / 60)) in *.
  rewrite (getCoastalInfluence_of_rems lat lng
             (lng - 60 * inject_Z k) (lng - 60 * inject_Z k)).
  - rewrite Qabs_pos by lra. rewrite Q.min_l by lra. reflexivity.
  - rewrite (shift_by lng 0) by (change (inject_Z 0) with 0; lra).
    apply rem60_shift_nonneg; try assumption.
    change (inject_Z 0) with 0. lra.
  - rewrite (shift_by lng 3) by (change (inject_Z 3) with 3; lra).
    apply rem60_shift_nonneg; try assumption.
    change (inject_Z 3) with 3. lra.
Qed.

(** At a longitude in [-180, 0] the first remainder is the (negative)
    distance to the multiple of 60 above, the second the distance to the
    multiple of 60 below. *)
Lemma getCoastalInfluence_nonpos (lat lng : number) :
  -180 <= lng -> lng <= 0 ->
  getCoastalInfluence lat lng
  == Qmax 0 ((20 - Qmin (60 * inject_Z (Qceiling (lng / 60)) - lng)
                        (lng - 60 * inject_Z (Qfloor (lng / 60)))) / 20).
Proof.
  intros Hl H0. destruct (floor60_bounds lng) as [Bl Bu].
  destruct (ceiling60_bounds lng) as [Cl Cu].
  set (k := Qfloor (lng / 60)) in *. set (c := Qceiling (lng / 60)) in *.
  rewrite (getCoastalInfluence_of_rems lat lng
             (lng - 60 * inject_Z c) (lng - 60 * inject_Z k)).
  - rewrite (Qabs_neg (lng - 60 * inject_Z c)) by lra.
    rewrite (Qabs_pos (lng - 60 * inject_Z k)) by lra.
    assert (E : - (lng - 60 * inject_Z c) == 60 * inject_Z c - lng) by lra.
    rewrite E. reflexivity.
  - rewrite (shift_by lng 0) by (change (inject_Z 0) with 0; lra).
    apply rem60_shift_nonpos; try assumption.
    change (inject_Z 0) with 0. lra.
  - rewrite (shift_by lng 3) by (change (inject_Z 3) with 3; lra).
    apply rem60_shift_nonneg; try assumption.
    change (inject_Z 3) with 3. lra.
Qed.

(** C7 (the code departs from it).  Longitude -10 and longitude 50 are
    both within [-180, 180] and 60 degrees apart, yet the influence is 1/2
    at the first and 0 at the second, for every latitude: [%] keeps the
    sign of a negative longitude, so [Math.abs(lng % 60)] measures the
    distance to the multiple of 60 above (10) where the shifted point
    measures the distance to the multiple below (50).  Both values lie in
    [0, 1]. *)
Theorem getCoastalInfluence_differs_across_zero (lat : number) :
  (-180 <= -10 /\ -10 <= 180) /\ (-180 <= -10 + 60 /\ -10 + 60 <= 180)
  /\ getCoastalInfluence lat (-10) == 1 # 2
  /\ getCoastalInfluence lat (-10 + 60) == 0.
Proof.
  split; [split; discriminate |]. split; [split; discriminate |].
  split; reflexivity.
Qed.

(** * Further properties of the code *)

(** ** getCropSuitability: the perfect score and the soil penalty *)

(** Outside its range a component score loses at least the penalty of
    half the range's width. *)
Lemma range_score_outside (x lo hi k : number) :
  0 <= k -> lo <= hi -> ge x lo && le x hi = false ->
  (if ge x lo && le x hi then 100
   else Math_max 0 (100 - Math_abs (x - (lo + hi) / 2) * k))
  <= Qmax 0 (100 - k * ((hi - lo) / 2)).
Proof.
  intros Hk Hw Out. rewrite Out. unfold Math_max, Math_abs.
  apply Q.max_le_compat_l.
  assert (A : (hi - lo) / 2 <= Qabs (x - (lo + hi) / 2)).
  { apply andb_false_iff in Out. destruct Out as [O | O].
    - apply ge_false in O. rewrite Qabs_neg; unfold Qdiv in *;
        change (/ 2) with (1 # 2) in *; lra.
    - apply Qle_bool_false in O. rewrite Qabs_pos; unfold Qdiv in *;
        change (/ 2) with (1 # 2) in *; lra. }
  assert (B : (hi - lo) / 2 * k <= Qabs (x - (lo + hi) / 2) * k)
    by (apply Qmult_le_compat_r; assumption).
  lra.
Qed.

Lemma range_score_outside_wide (x lo hi k w : number) :
  0 <= k -> lo + w <= hi -> 0 <= w -> 5 <= k * w ->
  ge x lo && le x hi = false ->
  (if ge x lo && le x hi then 100
   else Math_max 0 (100 - Math_abs (x - (lo + hi) / 2) * k))
  <= 97.5.
Proof.
  intros Hk Hw W0 Pen Out.
  eapply Qle_trans; [apply range_score_outside; try assumption; lra |].
  apply Q.max_lub; [discriminate |].
  assert (A : k * w <= k * (hi - lo))
    by (rewrite !(Qmult_comm k); apply Qmult_le_compat_r; lra).
  unfold Qdiv. change (/ 2) with (1 # 2). lra.
Qed.

Lemma in_range_true (x lo hi : number) :
  ge x lo && le x hi = true <-> lo <= x /\ x <= hi.
Proof. rewrite andb_true_iff, ge_true, le_true. tauto. Qed.

Lemma Normal_inj {A} (a b : A) : Normal a = Normal b -> a = b.
Proof. intro H. inversion H. reflexivity. Qed.

Lemma Math_round_eq_lower (x : number) (z : Z) :
  Math_round x = inject_Z z -> inject_Z z <= x + (1 # 2).
Proof. intro H. rewrite <- H. apply Qfloor_le. Qed.

(** On an entry with wide ranges the score is 100 exactly for the ideal
    bundles. *)
Lemma perfect_score_on_requirement (geoData : GeographicData)
    (cropType : string) (r : CropRequirement) :
  requirementsFor cropType = Requirement r -> wide_ranges r = true ->
  getCropSuitability geoData cropType = Normal 100 <-> ideal r geoData.
Proof.
  intros E W. unfold wide_ranges in W. rewrite !andb_true_iff in W.
  destruct W as [[Wt Wr] Wp]. apply Qle_bool_iff in Wt, Wr, Wp.
  unfold getCropSuitability. rewrite E.
  unfold tempScore, rainfallScore, soilScore, phScore, member, cbind, ideal.
  pose proof (range_score_bounds (temperature geoData) (fst (tempRange r))
                (snd (tempRange r)) 5 ltac:(discriminate)) as [_ Tu].
  pose proof (range_score_bounds (rainfall geoData) (fst (rainfallRange r))
                (snd (rainfallRange r)) 0.1 ltac:(discriminate)) as [_ Fu].
  pose proof (range_score_bounds (soilPH geoData) (fst (phRange r))
                (snd (phRange r)) 20 ltac:(discriminate)) as [_ Pu].
  pose proof (range_score_outside_wide (temperature geoData)
                (fst (tempRange r)) (snd (tempRange r)) 5 1
                ltac:(discriminate) Wt ltac:(discriminate)
                ltac:(discriminate)) as To.
  pose proof (range_score_outside_wide (rainfall geoData)
                (fst (rainfallRange r)) (snd (rainfallRange r)) 0.1 50
                ltac:(discriminate) Wr ltac:(discriminate)
                ltac:(discriminate)) as Fo.
  pose proof (range_score_outside_wide (soilPH geoData)
                (fst (phRange r)) (snd (phRange r)) 20 0.25
                ltac:(discriminate) Wp ltac:(discriminate)
                ltac:(discriminate)) as Po.
  cbv zeta in Tu, Fu, Pu.
  rewrite <- !in_range_true.
  destruct (ge (temperature geoData) (fst (tempRange r))
            && le (temperature geoData) (snd (tempRange r))) eqn:Ct;
  destruct (ge (rainfall geoData) (fst (rainfallRange r))
            && le (rainfall geoData) (snd (rainfallRange r))) eqn:Cf;
  destruct (includes (preferredSoil r) (soilType geoData)) eqn:Cs;
  destruct (ge (soilPH geoData) (fst (phRange r))
            && le (soilPH geoData) (snd (phRange r))) eqn:Cp;
  try match goal with
      | |- _ <-> true = true /\ true = true /\ true = true /\ true = true =>
          split; [intros _; repeat split; reflexivity | intros _; reflexivity]
      end.
  all: split; [| intros (A & B & C & D); congruence].
  all: intro H; exfalso; apply Normal_inj in H;
    apply (Math_round_eq_lower _ 100) in H;
    try specialize (To eq_refl); try specialize (Fo eq_refl);
    try specialize (Po eq_refl);
    change (inject_Z 100) with 100 in H; unfold Qdiv in *;
    change (/ 4) with (1 # 4) in H; lra.
Qed.

(** The requirements selected for an identifier are always an entry of
    the table. *)
Lemma requirementsFor_in_table (cropType : string) (r : CropRequirement) :
  requirementsFor cropType = Requirement r ->
  In r (map snd cropRequirements).
Proof.
  unfold requirementsFor, get.
  destruct (find (fun kv => String.eqb (fst kv) cropType) cropRequirements)
    as [kv|] eqn:F.
  - intro H. inversion H. subst r. apply in_map.
    apply find_some in F. apply F.
  - destruct (existsb (String.eqb cropType) Object_prototype).
    + discriminate.
    + cbn. intro H. inversion H. tauto.
Qed.

Lemma table_wide_ranges (r : CropRequirement) :
  In r (map snd cropRequirements) -> wide_ranges r = true.
Proof.
  cbn. intro H.
  repeat (destruct H as [H | H]; [subst r; reflexivity |]).
  contradiction.
Qed.

(** The score is 100 exactly when temperature, rainfall and pH lie within
    the ranges of the selected entry and the soil type is a preferred one:
    any miss costs at least one point after rounding. *)
Theorem getCropSuitability_perfect_iff_ideal (geoData : GeographicData)
    (cropType : string) :
  ~ In cropType Object_prototype ->
  exists r,
    requirementsFor cropType = Requirement r
    /\ In r (map snd cropRequirements)
    /\ (getCropSuitability geoData cropType = Normal 100 <-> ideal r geoData).
Proof.
  intro H. destruct (requirementsFor_not_inherited cropType H) as [r E].
  exists r. split; [exact E |].
  pose proof (requirementsFor_in_table cropType r E) as T.
  split; [exact T |].
  apply perfect_score_on_requirement; [exact E | apply table_wide_ranges, T].
Qed.

Lemma getCropSuitability_perfect_iff_ideal_witness :
  ~ In "Wheat Production" Object_prototype
  /\ exists r,
       requirementsFor "Wheat Production" = Requirement r
       /\ In r (map snd cropRequirements)
       /\ (getCropSuitability (corn_scenario 60 65 200) "Wheat Production"
           = Normal 100
           <-> ideal r (corn_scenario 60 65 200)).
Proof.
  assert (N : ~ In "Wheat Production" Object_prototype)
    by (apply knownCrops_not_inherited; cbn; tauto).
  split; [exact N |].
  exact (getCropSuitability_perfect_iff_ideal
           (corn_scenario 60 65 200) "Wheat Production" N).
Defined.

(** A soil type that is not preferred (or an undefined one) caps the score
    at 90. *)
Theorem getCropSuitability_soil_penalty (geoData : GeographicData)
    (cropType : string) (r : CropRequirement) :
  requirementsFor cropType = Requirement r ->
  includes (preferredSoil r) (soilType geoData) = false ->
  exists z : Z,
    getCropSuitability geoData cropType = Normal (inject_Z z)
    /\ (15 <= z <= 90)%Z.
Proof.
  intros E S. unfold getCropSuitability. rewrite E.
  unfold tempScore, rainfallScore, soilScore, phScore, member, cbind.
  rewrite S.
  pose proof (range_score_bounds (temperature geoData) (fst (tempRange r))
                (snd (tempRange r)) 5 ltac:(discriminate)) as [Tl Tu].
  pose proof (range_score_bounds (rainfall geoData) (fst (rainfallRange r))
                (snd (rainfallRange r)) 0.1 ltac:(discriminate)) as [Fl Fu].
  pose proof (range_score_bounds (soilPH geoData) (fst (phRange r))
                (snd (phRange r)) 20 ltac:(discriminate)) as [Pl Pu].
  cbv zeta in Tl, Tu, Fl, Fu, Pl, Pu.
  eexists. split; [reflexivity |].
  match goal with
  | |- (_ <= Qfloor (?X + _) <= _)%Z =>
      pose proof (Math_round_ge 15 X) as L;
      pose proof (Math_round_le 90 X) as U
  end.
  unfold Math_round in L, U. rewrite <- Zle_Qle in L, U.
  split; [apply L | apply U].
  - change (inject_Z 15) with 15. unfold Qdiv in *.
    change (/ 4) with (1 # 4). lra.
  - change (inject_Z 90) with 90. unfold Qdiv in *.
    change (/ 4) with (1 # 4). lra.
Qed.

Lemma getCropSuitability_soil_penalty_witness :
  requirementsFor "Corn Production"
  = Requirement {| tempRange := (15, 30); rainfallRange := (600, 1200);
                   preferredSoil := [loam; clay]; phRange := (6.0, 7.0) |}
  /\ exists z : Z,
       getCropSuitability
         {| soilType := Some sandy; waterLevel := 60; moistureLevel := 65;
            temperature := 22; rainfall := 800; soilPH := 6.5;
            elevation := 200 |} "Corn Production"
       = Normal (inject_Z z)
       /\ (15 <= z <= 90)%Z.
Proof.
  split; [reflexivity |].
  apply (getCropSuitability_soil_penalty
           {| soilType := Some sandy; waterLevel := 60; moistureLevel := 65;
              temperature := 22; rainfall := 800; soilPH := 6.5;
              elevation := 200 |} "Corn Production"
           {| tempRange := (15, 30); rainfallRange := (600, 1200);
              preferredSoil := [loam; clay]; phRange := (6.0, 7.0) |});
    reflexivity.
Defined.

(** For every attribute bundle and every identifier that does not name a
    property of [Object.prototype], predefined or not, the call returns an
    integer between 15 and 100. *)
Theorem getCropSuitability_returns_15_to_100 (geoData : GeographicData)
    (cropType : string) :
  ~ In cropType Object_prototype ->
  exists z : Z,
    getCropSuitability geoData cropType = Normal (inject_Z z)
    /\ (15 <= z <= 100)%Z.
Proof. apply getCropSuitability_score_range. Qed.

Lemma getCropSuitability_returns_15_to_100_witness :
  ~ In "Teff Production" Object_prototype
  /\ exists z : Z,
       getCropSuitability (corn_scenario 60 65 200) "Teff Production"
       = Normal (inject_Z z)
       /\ (15 <= z <= 100)%Z.
Proof.
  assert (N : ~ In "Teff Production" Object_prototype)
    by (cbn; intros H;
        repeat (destruct H as [H | H]; [discriminate H |]); exact H).
  split; [exact N |].
  exact (getCropSuitability_returns_15_to_100
           (corn_scenario 60 65 200) "Teff Production" N).
Defined.

Lemma getCropSuitability_fallback_witness :
  ~ In "Teff Production" knownCrops
  /\ ~ In "Teff Production" Object_prototype
  /\ getCropSuitability (corn_scenario 60 65 200) "Teff Production"
     = getCropSuitability (corn_scenario 60 65 200) "Corn Production".
Proof.
  assert (K : ~ In "Teff Production" knownCrops)
    by (cbn; intros H;
        repeat (destruct H as [H | H]; [discriminate H |]); exact H).
  assert (N : ~ In "Teff Production" Object_prototype)
    by (cbn; intros H;
        repeat (destruct H as [H | H]; [discriminate H |]); exact H).
  split; [exact K | split; [exact N |]].
  exact (getCropSuitability_fallback
           (corn_scenario 60 65 200) "Teff Production" K N).
Defined.

(** ** getRegionName *)

(** South of 35 degrees south every point is labelled International
    Waters: each land rule asks for a latitude above -35 (or above 25, 35,
    49). *)
Theorem getRegionName_far_south (lat lng : number) :
  lat <= -35 -> getRegionName lat lng = "International Waters".
Proof.
  intro H. unfold getRegionName.
  assert (A : gt lat 49 = false)
    by (unfold gt; rewrite negb_false_iff; apply Qle_bool_iff; lra).
  assert (B : gt lat 25 = false)
    by (unfold gt; rewrite negb_false_iff; apply Qle_bool_iff; lra).
  assert (C : gt lat (-35) = false)
    by (unfold gt; rewrite negb_false_iff; apply Qle_bool_iff; lra).
  assert (D : gt lat 35 = false)
    by (unfold gt; rewrite negb_false_iff; apply Qle_bool_iff; lra).
  rewrite A, B, C, D. reflexivity.
Qed.

Lemma getRegionName_far_south_witness :
  -43.5321 <= -35
  /\ getRegionName (-43.5321) 172.6362 = "International Waters".
Proof.
  split.
  - discriminate.
  - apply (getRegionName_far_south (-43.5321) 172.6362). discriminate.
Defined.

(** The 49th parallel itself belongs to neither Canada (latitude above 49)
    nor the USA (latitude below 49): west of 20 degrees west it is
    International Waters. *)
Theorem getRegionName_parallel_49 (lat lng : number) :
  lat == 49 -> lng <= -20 -> getRegionName lat lng = "International Waters".
Proof.
  intros H W. unfold getRegionName.
  assert (A : gt lat 49 = false)
    by (unfold gt; rewrite negb_false_iff; apply Qle_bool_iff; lra).
  assert (B : lt lat 49 = false) by (apply lt_false; lra).
  assert (C : lt lat 25 = false) by (apply lt_false; lra).
  assert (D : gt lng (-10) = false)
    by (unfold gt; rewrite negb_false_iff; apply Qle_bool_iff; lra).
  assert (E : gt lng 70 = false)
    by (unfold gt; rewrite negb_false_iff; apply Qle_bool_iff; lra).
  assert (F : gt lng (-20) = false)
    by (unfold gt; rewrite negb_false_iff; apply Qle_bool_iff; lra).
  rewrite A, B, C, D, E, F. rewrite !andb_false_r. reflexivity.
Qed.

Lemma getRegionName_parallel_49_witness :
  49 == 49 /\ -100 <= -20
  /\ getRegionName 49 (-100) = "International Waters".
Proof.
  split; [reflexivity | split; [discriminate |]].
  apply (getRegionName_parallel_49 49 (-100)); [reflexivity | discriminate].
Defined.

(** The rule for Africa has no northern limit: every point north of 35
    degrees south whose longitude lies between 20 and 10 degrees west
    (Iceland, the west of Ireland, Madeira) is labelled Africa. *)
Theorem getRegionName_africa_north (lat lng : number) :
  -35 < lat -> -20 < lng -> lng <= -10 ->
  getRegionName lat lng = "Africa".
Proof.
  intros S W E. unfold getRegionName.
  assert (A : lt lng (-60) = false) by (apply lt_false; lra).
  assert (B : lt lng (-65) = false) by (apply lt_false; lra).
  assert (C : lt lng (-30) = false) by (apply lt_false; lra).
  assert (D : gt lng (-10) = false)
    by (unfold gt; rewrite negb_false_iff; apply Qle_bool_iff; lra).
  assert (F : gt lng 70 = false)
    by (unfold gt; rewrite negb_false_iff; apply Qle_bool_iff; lra).
  assert (G : gt lat (-35) = true) by (apply gt_true; lra).
  assert (H : gt lng (-20) = true) by (apply gt_true; lra).
  assert (I : lt lng 55 = true) by (apply lt_true; lra).
  rewrite A, B, C, D, F, G, H, I. rewrite !andb_false_r. reflexivity.
Qed.

Lemma getRegionName_africa_north_witness :
  -35 < 64.1466 /\ -20 < -19.0208 /\ -19.0208 <= -10
  /\ getRegionName 64.1466 (-19.0208) = "Africa".
Proof.
  split; [reflexivity | split; [reflexivity | split; [discriminate |]]].
  apply (getRegionName_africa_north 64.1466 (-19.0208));
    [reflexivity | reflexivity | discriminate].
Defined.

(** ** getGeographicData: use of the random source *)

Lemma getGeographicData_rest {M : MathImpl}
    (lat lng : number) (s : RandomSource) (n : nat) :
  snd (getGeographicData lat lng s) n
  = s (Nat.add (if lt (s 5%nat) 0.2 then 8%nat else 7%nat) n).
Proof.
  cbv [getGeographicData getElevationFromCoordinates bind ret Math_random].
  cbv beta iota zeta.
  destruct (lt (s 5%nat) 0.2); reflexivity.
Qed.

(** The source that a call leaves behind still has its draws in [0, 1). *)
Lemma getGeographicData_unit_interval {M : MathImpl}
    (lat lng : number) (s : RandomSource) :
  unit_interval s -> unit_interval (snd (getGeographicData lat lng s)).
Proof.
  intros H n. rewrite getGeographicData_rest. apply H.
Qed.

(** A call consumes seven draws, and an eighth when the soil type is
    overridden (draw 5 below 0.2): the source left for the next call is
    the original one shifted by 7 or 8. *)
Theorem getGeographicData_draws {M : MathImpl}
    (lat lng : number) (s : RandomSource) (n : nat) :
  snd (getGeographicData lat lng s) n
  = s (Nat.add (if lt (s 5%nat) 0.2 then 8%nat else 7%nat) n).
Proof. apply getGeographicData_rest. Qed.

(** ** getGeographicData: temperature and pH *)

Lemma baseTemperature_le_27 (lat : number) :
  baseTemperature (getClimateZone lat) <= 27.
Proof.
  unfold getClimateZone.
  repeat match goal with
         | |- context [if ?c then _ else _] => destruct c
         end; discriminate.
Qed.

(** The temperature is an integer of at most 35 degrees: the warmest base
    temperature is 27, the elevation only cools, the coast adds at most 3
    and the jitter less than 5. *)
Theorem getGeographicData_temperature {M : MathImpl}
    (lat lng : number) (s : RandomSource) :
  unit_interval s ->
  is_integer (temperature (fst (getGeographicData lat lng s)))
  /\ temperature (fst (getGeographicData lat lng s)) <= 35.
Proof.
  intro Hs.
  cbv [getGeographicData getElevationFromCoordinates bind ret Math_random].
  cbv beta iota zeta.
  destruct (lt (s 5%nat) 0.2); cbv beta iota zeta; cbn [fst temperature].
  all: split; [apply Math_round_integer |].
  all: apply (Math_round_le 35); change (inject_Z 35) with 35.
  all: pose proof (baseTemperature_le_27 lat) as B.
  all: destruct (getCoastalInfluence_range lat lng) as [_ C].
  all: destruct (Hs 1%nat) as [_ R].
  all: match goal with
       | |- context [Math_max 0 ?e * _] =>
           pose proof (Q.le_max_l 0 e) as E; unfold Math_max;
           set (elev := Qmax 0 e) in *
       end.
  all: lra.
Qed.

Lemma getGeographicData_temperature_witness :
  unit_interval (fun _ => 0.5)
  /\ is_integer
       (temperature
          (fst (getGeographicData (M := Reference.engine)
                  4.5709 (-75.6173) (fun _ => 0.5))))
  /\ temperature
       (fst (getGeographicData (M := Reference.engine)
               4.5709 (-75.6173) (fun _ => 0.5))) <= 35.
Proof.
  assert (U : unit_interval (fun _ => 0.5))
    by (intro n; split; [discriminate | reflexivity]).
  split; [exact U |].
  exact (getGeographicData_temperature (M := Reference.engine)
           4.5709 (-75.6173) (fun _ => 0.5) U).
Defined.

(** The pH computed from a base pH [b] with one decimal between 4.0 and
    8.0: the clamp to [3, 9] is not reached, the result stays within 1 of
    [b] and has one decimal. *)
Lemma pH_round (b r : number) (b10 : Z) :
  b * 10 == inject_Z b10 -> (40 <= b10 <= 80)%Z -> 0 <= r -> r < 1 ->
  let v :=
    Math_max 3 (Math_min 9 (Math_round ((b + (r - 0.5) * 2) * 10) / 10)) in
  b - 1 <= v /\ v <= b + 1 /\ is_integer (v * 10).
Proof.
  intros Hb [Lo Hi] R0 R1 v. subst v.
  set (X := (b + (r - 0.5) * 2) * 10).
  assert (XL : inject_Z (b10 - 10) <= X).
  { unfold X, Z.sub. rewrite inject_Z_plus.
    change (inject_Z (- (10))) with (-10). lra. }
  assert (XU : X <= inject_Z (b10 + 10)).
  { unfold X. rewrite inject_Z_plus. change (inject_Z 10) with 10. lra. }
  apply Math_round_ge in XL. apply Math_round_le in XU.
  unfold Z.sub in XL. rewrite inject_Z_plus in XL, XU.
  change (inject_Z (- (10))) with (-10) in XL.
  change (inject_Z 10) with 10 in XU.
  rewrite Zle_Qle in Lo, Hi.
  change (inject_Z 40) with 40 in Lo. change (inject_Z 80) with 80 in Hi.
  destruct (Math_round_integer X) as [z Hz].
  set (Rd := Math_round X) in *.
  assert (E : Math_max 3 (Math_min 9 (Rd / 10)) == Rd / 10).
  { unfold Math_max, Math_min.
    rewrite (Q.min_r 9 (Rd / 10))
      by (unfold Qdiv; change (/ 10) with (1 # 10); lra).
    apply Q.max_r. unfold Qdiv. change (/ 10) with (1 # 10). lra. }
  split; [| split].
  - rewrite E. unfold Qdiv. change (/ 10) with (1 # 10). lra.
  - rewrite E. unfold Qdiv. change (/ 10) with (1 # 10). lra.
  - exists z. rewrite E, <- Hz. unfold Qdiv. change (/ 10) with (1 # 10).
    lra.
Qed.

Lemma soilPH_within_base {M : MathImpl}
    (lat lng : number) (s : RandomSource) :
  unit_interval s ->
  let g := fst (getGeographicData lat lng s) in
  let basePH :=
    match soilType g with
    | Some peat => 4.5
    | Some sandy => 6.5
    | Some clay => 7.2
    | Some rocky => 7.8
    | _ => 6.8
    end in
  basePH - 1 <= soilPH g /\ soilPH g <= basePH + 1
  /\ is_integer (soilPH g * 10).
Proof.
  intro Hs.
  cbv [getGeographicData getElevationFromCoordinates bind ret Math_random].
  cbv beta iota zeta.
  destruct (lt (s 5%nat) 0.2); cbv beta iota zeta; cbn [fst soilPH soilType].
  all: match goal with
       | |- context [strict_eq ?st peat] => generalize st
       end.
  all: intros [[] |]; cbn [strict_eq SoilType_eqb].
  all: match goal with
       | |- context [Math_round ((?b + (?f ?k - 0.5) * 2) * 10)] =>
           destruct (Hs k) as [R0 R1];
           apply (pH_round b (f k) (Qfloor (b * 10)));
           [reflexivity | vm_compute; split; discriminate
            | exact R0 | exact R1]
       end.
Qed.

(** The pH goes with the soil type that is returned: it lies within 1 of
    that soil's base pH (peat 4.5, sandy 6.5, clay 7.2, rocky 7.8, loam and
    any other 6.8) and has one decimal.  So it always lies in [3.5, 8.8],
    and the clamp to [3, 9] is never reached. *)
Theorem getGeographicData_soilPH_follows_soilType {M : MathImpl}
    (lat lng : number) (s : RandomSource) :
  unit_interval s ->
  let g := fst (getGeographicData lat lng s) in
  let basePH :=
    match soilType g with
    | Some peat => 4.5
    | Some sandy => 6.5
    | Some clay => 7.2
    | Some rocky => 7.8
    | _ => 6.8
    end in
  basePH - 1 <= soilPH g /\ soilPH g <= basePH + 1
  /\ is_integer (soilPH g * 10).
Proof. apply soilPH_within_base. Qed.

Lemma getGeographicData_soilPH_follows_soilType_witness :
  unit_interval (fun _ => 0.1)
  /\ let g := fst (getGeographicData (M := Reference.engine)
                     42.0308 (-93.6319) (fun _ => 0.1)) in
     let basePH :=
       match soilType g with
       | Some peat => 4.5
       | Some sandy => 6.5
       | Some clay => 7.2
       | Some rocky => 7.8
       | _ => 6.8
       end in
     basePH - 1 <= soilPH g /\ soilPH g <= basePH + 1
     /\ is_integer (soilPH g * 10).
Proof.
  assert (U : unit_interval (fun _ => 0.1))
    by (intro n; split; [discriminate | reflexivity]).
  split; [exact U |].
  exact (getGeographicData_soilPH_follows_soilType (M := Reference.engine)
           42.0308 (-93.6319) (fun _ => 0.1) U).
Defined.

(** ** getElevationFromCoordinates *)

Lemma elevation_integer_nonneg {M : MathImpl}
    (lat lng : number) (s : RandomSource) :
  is_integer (elevation (fst (getGeographicData lat lng s)))
  /\ 0 <= elevation (fst (getGeographicData lat lng s)).
Proof.
  cbv [getGeographicData getElevationFromCoordinates bind ret Math_random].
  cbv beta iota zeta.
  destruct (lt (s 5%nat) 0.2); cbv beta iota zeta; cbn [fst elevation].
  all: split;
    [apply Math_max_integer;
       [apply (is_integer_inject 0) | apply Math_round_integer]
    | apply Q.le_max_l].
Qed.

Lemma soilPH_3_5_to_8_8 {M : MathImpl}
    (lat lng : number) (s : RandomSource) :
  unit_interval s ->
  3.5 <= soilPH (fst (getGeographicData lat lng s))
  /\ soilPH (fst (getGeographicData lat lng s)) <= 8.8.
Proof.
  intro Hs. pose proof (soilPH_within_base lat lng s Hs) as H.
  cbv zeta in H.
  destruct (soilType (fst (getGeographicData lat lng s))) as [[] |];
    destruct H as (A & B & _); split; lra.
Qed.

(** More than 10 degrees away from the four mountain regions the
    elevation is an integer between 0 and 400 metres: the base of 200 and
    a jitter of at most 200 either way. *)
Theorem getElevationFromCoordinates_far {M : MathImpl} {L : MathLaws M}
    (lat lng : number) (s : RandomSource) :
  far_from_mountains lat lng = true -> unit_interval s ->
  let e := fst (getElevationFromCoordinates lat lng s) in
  is_integer e /\ 0 <= e /\ e <= 400.
Proof.
  intros F Hs e. subst e. rewrite (getElevation_far lat lng F).
  cbv [bind ret Math_random]. cbn [fst].
  destruct (Hs 0%nat) as [R0 R1].
  split; [| split].
  - apply Math_max_integer;
      [apply (is_integer_inject 0) | apply Math_round_integer].
  - apply Q.le_max_l.
  - apply Q.max_lub; [discriminate |].
    apply (Math_round_le 400). change (inject_Z 400) with 400. lra.
Qed.

Lemma getElevationFromCoordinates_far_witness :
  MathLaws Reference.engine
  /\ far_from_mountains 42.0308 (-93.6319) = true
  /\ unit_interval (fun _ => 0.5)
  /\ let e := fst (getElevationFromCoordinates (M := Reference.engine)
                     42.0308 (-93.6319) (fun _ => 0.5)) in
     is_integer e /\ 0 <= e /\ e <= 400.
Proof.
  assert (U : unit_interval (fun _ => 0.5))
    by (intro n; split; [discriminate | reflexivity]).
  split; [exact Reference_laws | split; [reflexivity | split; [exact U |]]].
  exact (getElevationFromCoordinates_far (M := Reference.engine)
           (L := Reference_laws) 42.0308 (-93.6319) (fun _ => 0.5)
           eq_refl U).
Defined.

(** ** The nine cells of a farm *)

Lemma unit_interval_tail (s : RandomSource) (k : nat) :
  unit_interval s -> unit_interval (fun n => s (Nat.add k n)).
Proof. intros H n. apply H. Qed.

(** [Array.from] keeps a property of the source and collects, index by
    index, what each call of the callback guarantees. *)
Lemma Array_from_indices_Forall2 {A} (f : nat -> Rand A)
    (P : nat -> A -> Prop) (I : RandomSource -> Prop) :
  (forall i s, I s -> P i (fst (f i s)) /\ I (snd (f i s))) ->
  forall indices s, I s ->
    Forall2 P indices (fst (Array_from_indices f indices s))
    /\ I (snd (Array_from_indices f indices s)).
Proof.
  intros Hf indices. induction indices as [| i rest IH]; intros s Hs.
  - cbn. split; [constructor | exact Hs].
  - cbn [Array_from_indices]. unfold bind, ret.
    destruct (Hf i s Hs) as [Pi Is].
    destruct (f i s) as [x s1]. cbn [fst snd] in Pi, Is.
    destruct (IH s1 Is) as [Pr Ir].
    destruct (Array_from_indices f rest s1) as [xs s2].
    cbn [fst snd] in *. split; [constructor; assumption | exact Ir].
Qed.

Section CellProperties.

Context {M : MathImpl}.

Lemma newCell_in_ranges (farm : Farm.Farm) (i : nat) (s : RandomSource) :
  unit_interval s ->
  (Cell.id (fst (newCell farm i s)) = inject_Z (Z.of_nat i)
   /\ Cell.cropType (fst (newCell farm i s)) = Farm.type farm
   /\ cell_in_ranges (fst (newCell farm i s)))
  /\ unit_interval (snd (newCell farm i s)).
Proof.
  intro Hs. cbv [newCell bind ret Math_random]. cbv beta iota zeta.
  set (lat' := Farm.lat (Farm.location farm) + (s 0%nat - 0.5) * 0.001).
  set (lng' := Farm.lng (Farm.location farm) + (s 1%nat - 0.5) * 0.001).
  set (s2 := fun n : nat => s (S (S n))).
  assert (U2 : unit_interval s2) by (intro n; apply Hs).
  pose proof (getGeographicData_unit_interval lat' lng' s2 U2) as U3.
  pose proof (soilPH_3_5_to_8_8 lat' lng' s2 U2) as [PL PU].
  pose proof (elevation_integer_nonneg lat' lng' s2) as [EI E0].
  destruct (getGeographicData lat' lng' s2) as [g s3].
  cbn [fst snd] in *.
  destruct (U3 0%nat) as [? ?]. destruct (U3 1%nat) as [? ?].
  destruct (U3 2%nat) as [? ?]. destruct (U3 3%nat) as [? ?].
  destruct (U3 4%nat) as [? ?]. destruct (U3 5%nat) as [? ?].
  destruct (U3 6%nat) as [? ?].
  split.
  - split; [reflexivity | split; [reflexivity |]].
    unfold cell_in_ranges.
    cbn [Cell.nitrogen_level Cell.organic_matter Cell.irrigation_frequency
         Cell.fertilizer_amount Cell.health Cell.soil_ph Cell.elevation].
    repeat split; try lra; try assumption.
    + apply Q.le_max_l.
    + apply Q.max_lub; [discriminate | apply Q.le_min_l].
  - intro n. apply (U3 (7 + n)%nat).
Qed.

(** The cells of a farm: nine cells with the ids 0 to 8 in order, each
    with the crop type of the farm, nitrogen in [40, 80], organic matter in
    [20, 80], irrigation in [2, 7], fertilizer in [100, 300], health in
    [50, 95], pH in [3, 9.3] and an integer elevation of at least 0,
    whether or not the farm already carries its geographic data. *)
Theorem newCells_in_ranges (farm : Farm.Farm) (s : RandomSource) :
  unit_interval s ->
  let cells := fst (newCells farm s) in
  length cells = 9%nat
  /\ Forall2
       (fun i c =>
          Cell.id c = inject_Z (Z.of_nat i)
          /\ Cell.cropType c = Farm.type farm
          /\ cell_in_ranges c)
       (seq 0 9) cells.
Proof.
  intros Hs cells. subst cells.
  assert (F : forall s', unit_interval s' ->
            Forall2
              (fun i c =>
                 Cell.id c = inject_Z (Z.of_nat i)
                 /\ Cell.cropType c = Farm.type farm
                 /\ cell_in_ranges c)
              (seq 0 9) (fst (Array_from 9 (newCell farm) s'))).
  { intros s' Hs'. unfold Array_from.
    apply (Array_from_indices_Forall2 (newCell farm)
             (fun i c =>
                Cell.id c = inject_Z (Z.of_nat i)
                /\ Cell.cropType c = Farm.type farm
                /\ cell_in_ranges c)
             unit_interval); [| exact Hs'].
    intros i s0 H0. apply newCell_in_ranges. exact H0. }
  assert (G : Forall2
            (fun i c =>
               Cell.id c = inject_Z (Z.of_nat i)
               /\ Cell.cropType c = Farm.type farm
               /\ cell_in_ranges c)
            (seq 0 9) (fst (newCells farm s))).
  { unfold newCells, bind at 1.
    destruct (Farm.geographicData farm) as [g |].
    - cbn [ret]. apply F. exact Hs.
    - pose proof (getGeographicData_unit_interval
                    (Farm.lat (Farm.location farm))
                    (Farm.lng (Farm.location farm)) s Hs) as U.
      destruct (getGeographicData (Farm.lat (Farm.location farm))
                  (Farm.lng (Farm.location farm)) s) as [g s1].
      apply F. exact U. }
  split; [| exact G].
  apply Forall2_length in G. rewrite <- G. reflexivity.
Qed.

End CellProperties.

Lemma newCells_in_ranges_witness :
  unit_interval (fun _ => 0.5)
  /\ let cells :=
       fst (newCells (M := Reference.engine)
              {| Farm.id := "farm-42.0308--93.6319";
                 Farm.name := "Corn Farm";
                 Farm.location := {| Farm.lat := 42.0308;
                                     Farm.lng := -93.6319 |};
                 Farm.type := "Corn Production";
                 Farm.country := "USA";
                 Farm.description := "";
                 Farm.geographicData := None;
                 Farm.suitabilityScore := None |}
              (fun _ => 0.5)) in
     length cells = 9%nat
     /\ Forall2
          (fun i c =>
             Cell.id c = inject_Z (Z.of_nat i)
             /\ Cell.cropType c = "Corn Production"
             /\ cell_in_ranges c)
          (seq 0 9) cells.
Proof.
  assert (U : unit_interval (fun _ => 0.5))
    by (intro n; split; [discriminate | reflexivity]).
  split; [exact U |].
  exact (newCells_in_ranges (M := Reference.engine)
           {| Farm.id := "farm-42.0308--93.6319";
              Farm.name := "Corn Farm";
              Farm.location := {| Farm.lat := 42.0308;
                                  Farm.lng := -93.6319 |};
              Farm.type := "Corn Production";
              Farm.country := "USA";
              Farm.description := "";
              Farm.geographicData := None;
              Farm.suitabilityScore := None |}
           (fun _ => 0.5) U).
Defined.

(** ** getCoastalInfluence at the multiples of 60 *)

(** At every multiple of 60 degrees from -180 on the influence is 1. *)
Theorem getCoastalInfluence_at_multiples_of_60 (lat : number) (n : Z) :
  (-3 <= n)%Z -> getCoastalInfluence lat (60 * inject_Z n) == 1.
Proof.
  intro H. rewrite Zle_Qle in H. change (inject_Z (-3)) with (-3) in H.
  assert (D : 60 * inject_Z n / 60 == inject_Z n) by (field).
  destruct (Qlt_le_dec (inject_Z n) 0) as [Neg | Pos].
  - rewrite getCoastalInfluence_nonpos by lra.
    rewrite (Qceiling_comp _ _ D), (Qfloor_comp _ _ D), Qceiling_Z, Qfloor_Z.
    assert (A : 60 * inject_Z n - 60 * inject_Z n == 0) by lra.
    rewrite A. rewrite Q.min_l by (apply Qle_refl).
    rewrite Q.max_r by discriminate. reflexivity.
  - rewrite getCoastalInfluence_nonneg by lra.
    rewrite (Qfloor_comp _ _ D), Qfloor_Z.
    assert (A : 60 * inject_Z n - 60 * inject_Z n == 0) by lra.
    rewrite A. rewrite Q.max_r by discriminate. reflexivity.
Qed.

Lemma getCoastalInfluence_at_multiples_of_60_witness :
  (-3 <= -2)%Z /\ getCoastalInfluence 10 (60 * inject_Z (-2)) == 1.
Proof.
  split; [discriminate |].
  apply (getCoastalInfluence_at_multiples_of_60 10 (-2)). discriminate.
Defined.

